(** * extract.py: the banned-books table extractor

    A shallow embedding of [extract.py] and of the parts of BeautifulSoup
    and pandas it calls, followed by the properties of the pipeline. The
    script hands literal markup to [read_html], which pandas accepts up
    to its version 2; the frames below behave as those of pandas 2.

    - [Py]: Python strings ([str.strip], [str] of an integer), exceptions.
    - [Bs4]: the page as the script sees it: elements in document order,
      [find_previous], [find], [get_text], tag equality.
    - [Pandas]: data frames as rows of cells with typed columns, and the
      frame operations the script uses.
    - [Extract]: the functions of [extract.py], line by line.

    Characters are code points below 256; a [string] is a Python [str]
    over that alphabet. *)

From Stdlib Require Import String Ascii List ZArith Bool Arith Lia Permutation.
From Stdlib Require Import Numbers.DecimalString.
Import ListNotations.
Open Scope string_scope.
Open Scope list_scope.

(** ** Python strings and exceptions *)
Module Py.

(** The characters for which [str.isspace] holds, below code point 256. *)
Definition isspace (c : ascii) : bool :=
  let n := nat_of_ascii c in
  (((9 <=? n) && (n <=? 13)) || ((28 <=? n) && (n <=? 32))
   || (n =? 133) || (n =? 160))%nat.

Fixpoint lstrip (s : string) : string :=
  match s with
  | String c r => if isspace c then lstrip r else s
  | EmptyString => EmptyString
  end.

Fixpoint rstrip (s : string) : string :=
  match s with
  | String c r =>
      match rstrip r with
      | EmptyString => if isspace c then EmptyString else String c EmptyString
      | r' => String c r'
      end
  | EmptyString => EmptyString
  end.

(** [s.strip()] *)
Definition strip (s : string) : string := lstrip (rstrip s).

(** [str(n)] for an [int]. *)
Definition str_of_int (z : Z) : string := NilZero.string_of_int (Z.to_int z).

(** [float(n)] for an [int] [n >= 0], as the integer it is: [n]
    rounded to 53 significant bits, to the nearest and on a tie to the
    even significand. *)
Definition nearest_double (n : Z) : Z :=
  if (n <? 2 ^ 53)%Z then n
  else
    let u := (2 ^ (Z.log2 n - 52))%Z in
    let q := (n / u)%Z in
    let r := (n mod u)%Z in
    if ((u <? 2 * r) || ((2 * r =? u) && Z.odd q))%Z
    then ((q + 1) * u)%Z else (q * u)%Z.

(** Whether the decimal number [c] is read back as the double [v],
    [v >= 2 ^ 53]: it lies between the midpoints to the two neighbours
    of [v], the midpoints included when the significand of [v] is
    even. Below a power of two the neighbour is half as far. *)
Definition reads_back (v c : Z) : bool :=
  let u := (2 ^ (Z.log2 v - 52))%Z in
  let m := (v / u)%Z in
  let below := (if m =? 2 ^ 52 then u else 2 * u)%Z in
  if Z.even m
  then ((4 * v - below <=? 4 * c) && (4 * c <=? 4 * v + 2 * u))%Z
  else ((4 * v - below <? 4 * c) && (4 * c <? 4 * v + 2 * u))%Z.

(** The shortest decimal number that is read back as the double [v],
    and the nearest to [v] among those: the multiples of [10 ^ j] next
    to [v], for the largest [j] that has one. *)
Fixpoint shortest_from (j : nat) (v : Z) : Z :=
  let p := (10 ^ Z.of_nat j)%Z in
  let c1 := (v / p * p)%Z in
  let c2 := (c1 + p)%Z in
  let ok1 := ((0 <? c1)%Z && reads_back v c1) in
  let ok2 := reads_back v c2 in
  if ok1 && ok2 then (if (v - c1 <=? c2 - v)%Z then c1 else c2)
  else if ok1 then c1
  else if ok2 then c2
  else match j with
       | O => v
       | S j' => shortest_from j' v
       end.

Definition shortest (v : Z) : Z :=
  if (v <? 2 ^ 53)%Z then v else shortest_from 19 v.

Fixpoint strip_zeros (fuel : nat) (c : Z) : Z :=
  match fuel with
  | O => c
  | S fuel' => if ((0 <? c) && (c mod 10 =? 0))%Z
               then strip_zeros fuel' (c / 10)%Z else c
  end.

(** [repr(x)] for the float [x] that is the decimal integer [c >= 0]:
    fixed notation up to 16 digits before the point, exponent notation
    beyond. *)
Definition repr_decimal (c : Z) : string :=
  let all := NilZero.string_of_int (Z.to_int c) in
  let point := String.length all in
  if (point <=? 16)%nat then all ++ ".0"
  else
    let digits := NilZero.string_of_int (Z.to_int (strip_zeros 20 c)) in
    match digits with
    | String d EmptyString => String d EmptyString
    | String d more => String d ("." ++ more)
    | EmptyString => EmptyString
    end ++ "e+" ++ NilZero.string_of_int (Z.to_int (Z.of_nat (point - 1))).

(** [repr(float(n))] for an [int] of 64 bits: what an integer reads
    once its column has become a column of floats. *)
Definition repr_float_of_int (n : Z) : string :=
  if (n <? 0)%Z then "-" ++ repr_decimal (shortest (nearest_double (- n)))
  else repr_decimal (shortest (nearest_double n)).

(** Truthiness of a [str]: [if s], [not s]. *)
Definition truthy (s : string) : bool := negb (s =? "").

(** [x in xs] for a set or list of strings. *)
Definition contains (xs : list string) (x : string) : bool :=
  existsb (String.eqb x) xs.

(** [separator.join(parts)] with the empty separator. *)
Definition join (parts : list string) : string := String.concat "" parts.

(** The exceptions that the script raises or lets through. [ValueError]
    stands for the class and its subclasses, which is what
    [except ValueError] catches. *)
Inductive exn : Type :=
| RuntimeError (msg : string)
| ValueError (msg : string)
| AttributeError (msg : string)
| IndexError (msg : string)
| KeyError (msg : string).

Definition is_ValueError (e : exn) : bool :=
  match e with ValueError _ => true | _ => false end.

End Py.

(** ** BeautifulSoup *)
Module Bs4.

(** The markup under an element. [Text] is a [NavigableString],
    [Comment] a comment; a tag has a name, its [class] list, its other
    attributes and its children. *)
#[warnings="-register-all"]
Inductive elem : Type :=
| Text (s : string)
| Comment (s : string)
| Tag (name : string) (classes : list string)
      (attrs : list (string * string)) (children : list elem).

(** [d1 == d2] for attribute dictionaries (keys are distinct): the same
    keys with the same values, in any order. *)
Definition attr_get (k : string) (d : list (string * string)) : option string :=
  option_map snd (find (fun kv => String.eqb (fst kv) k) d).

Definition option_string_eqb (a b : option string) : bool :=
  match a, b with
  | Some x, Some y => String.eqb x y
  | None, None => true
  | _, _ => false
  end.

Definition attrs_eqb (d1 d2 : list (string * string)) : bool :=
  (length d1 =? length d2)%nat
  && forallb (fun kv => option_string_eqb (attr_get (fst kv) d2) (Some (snd kv))) d1.

Fixpoint list_eqb {A} (eqb : A -> A -> bool) (l1 l2 : list A) : bool :=
  match l1, l2 with
  | [], [] => true
  | x :: r1, y :: r2 => eqb x y && list_eqb eqb r1 r2
  | _, _ => false
  end.

(** [Tag.__eq__]: "true iff this Tag has the same name, the same
    attributes, and the same contents (recursively)". Strings compare as
    [str], so by their text alone. It does not compare positions in the
    document: two tags with the same markup are [==]. *)
Fixpoint tag_eq (a b : elem) : bool :=
  match a, b with
  | Tag n1 c1 d1 k1, Tag n2 c2 d2 k2 =>
      String.eqb n1 n2 && list_eqb String.eqb c1 c2 && attrs_eqb d1 d2
      && (fix children_eq (l1 l2 : list elem) : bool :=
            match l1, l2 with
            | [], [] => true
            | x :: r1, y :: r2 => tag_eq x y && children_eq r1 r2
            | _, _ => false
            end) k1 k2
  | Tag _ _ _ _, _ | _, Tag _ _ _ _ => false
  | (Text s1 | Comment s1), (Text s2 | Comment s2) => String.eqb s1 s2
  end.

(** [_all_strings(strip=True)]: the text strings below an element in
    document order (comments are left out), each stripped, the empty
    ones dropped. *)
Fixpoint all_strings (e : elem) : list string :=
  match e with
  | Text s => let t := Py.strip s in if Py.truthy t then [t] else []
  | Comment _ => []
  | Tag _ _ _ kids => flat_map all_strings kids
  end.

(** [e.get_text(strip=True)] *)
Definition get_text_strip (e : elem) : string := Py.join (all_strings e).

Definition children (e : elem) : list elem :=
  match e with Tag _ _ _ kids => kids | _ => [] end.

(** The first element among [e] and what is below it, in document
    order, that is a tag called [name] with [cls] among its classes. *)
Fixpoint find_in (name cls : string) (e : elem) : option elem :=
  match e with
  | Tag n cs _ kids =>
      if String.eqb n name && Py.contains cs cls then Some e
      else (fix first (l : list elem) : option elem :=
              match l with
              | [] => None
              | k :: r => match find_in name cls k with
                          | Some x => Some x
                          | None => first r
                          end
              end) kids
  | _ => None
  end.

Fixpoint find_first (name cls : string) (l : list elem) : option elem :=
  match l with
  | [] => None
  | k :: r => match find_in name cls k with
              | Some x => Some x
              | None => find_first name cls r
              end
  end.

(** [e.find(name, class_=cls)]: the search starts below [e]. *)
Definition find (name cls : string) (e : elem) : option elem :=
  find_first name cls (children e).

(** The page as the script walks it: its headings and tables (with
    whatever else) in document order. An element keeps its own markup;
    a table keeps its [class] list and [T], what the script reads from
    it. Headings hold no tables and no headings. *)
Inductive node (T : Type) : Type :=
| Elem (e : elem)
| Table (classes : list string) (t : T).
Arguments Elem {T} e.
Arguments Table {T} classes t.

Definition named {T} (name : string) (n : node T) : option elem :=
  match n with
  | Elem (Tag m cs d k) => if String.eqb m name then Some (Tag m cs d k) else None
  | _ => None
  end.

(** A tag object: the element and the nodes before it in the document,
    the nearest first. Two objects are the same node ([is]) when they
    sit at the same position. *)
Record tag (T : Type) : Type := mkTag { before : list (node T); markup : elem }.
Arguments mkTag {T} before markup.
Arguments before {T} t.
Arguments markup {T} t.

Definition position {T} (t : tag T) : nat := length (before t).

Definition same_node {T} (a b : option (tag T)) : bool :=
  match a, b with
  | Some x, Some y => (position x =? position y)%nat
  | None, None => true
  | _, _ => false
  end.

(** [a == b] on the results of [find_previous]: [Tag.__eq__] on two
    tags, which answers [True] at once for one and the same object and
    compares the markup otherwise; [None] is equal to [None] only. *)
Definition eq_op {T} (a b : option (tag T)) : bool :=
  match a, b with
  | Some x, Some y =>
      (position x =? position y)%nat || tag_eq (markup x) (markup y)
  | None, None => true
  | _, _ => false
  end.

(** [x.find_previous(name)], where [prev] lists the nodes before [x],
    the nearest first. *)
Fixpoint find_previous {T} (name : string) (prev : list (node T)) : option (tag T) :=
  match prev with
  | [] => None
  | n :: r => match named name n with
              | Some e => Some (mkTag r e)
              | None => find_previous name r
              end
  end.

(** [content.select("table." ++ cls)] for a content body that starts
    after [prev]: every table of the body with that class, in document
    order, each with the nodes before it. *)
Fixpoint select_tables {T} (cls : string) (prev body : list (node T))
  : list (list (node T) * T) :=
  match body with
  | [] => []
  | n :: r =>
      match n with
      | Table cs t => if Py.contains cs cls then [(prev, t)] else []
      | Elem _ => []
      end ++ select_tables cls (n :: prev) r
  end.

End Bs4.

(** ** pandas *)
Module Pandas.
Import Py.

(** Monad of results: a value or a raised exception. *)
Inductive result (A : Type) : Type :=
| Ok (a : A)
| Raise (e : exn).
Arguments Ok {A} a.
Arguments Raise {A} e.

Definition bind {A B} (r : result A) (k : A -> result B) : result B :=
  match r with Ok a => k a | Raise e => Raise e end.

Declare Scope result_scope.
Delimit Scope result_scope with result.
Notation "x <- r ;; k" := (bind r (fun x => k))
  (at level 61, r at next level, right associativity) : result_scope.

Inductive dtype : Type := object | int64 | float64.

Definition dtype_eqb (a b : dtype) : bool :=
  match a, b with
  | object, object | int64, int64 | float64, float64 => true
  | _, _ => false
  end.

(** A cell: a [str], an integer, a float that is not NaN (held as the
    text Python prints for it), NaN, or [pd.NA]. *)
Inductive cell : Type :=
| Str (s : string)
| Int (z : Z)
| Float (repr : string)
| NaN
| NA.

Definition isna (c : cell) : bool :=
  match c with NaN | NA => true | _ => false end.

(** [str(v)] as [astype(str)] applies it: missing values are printed
    too. *)
Definition str_of_cell (c : cell) : string :=
  match c with
  | Str s => s
  | Int z => str_of_int z
  | Float r => r
  | NaN => "nan"
  | NA => "<NA>"
  end.

(** A Series: a dtype and the values. *)
Record series : Type := mkSeries { s_dtype : dtype; values : list cell }.

(** [s.astype(str)] *)
Definition astype_str (s : series) : series :=
  mkSeries object (map (fun c => Str (str_of_cell c)) (values s)).

(** [s.str.strip()]: what is not a [str] becomes NaN. *)
Definition str_strip (s : series) : series :=
  mkSeries object
    (map (fun c => match c with Str x => Str (strip x) | _ => NaN end) (values s)).

(** [s.replace({old: new})]: the cells equal to [old]. *)
Definition replace (old new : string) (s : series) : series :=
  mkSeries (s_dtype s)
    (map (fun c => match c with
                   | Str x => if String.eqb x old then Str new else c
                   | _ => c
                   end) (values s)).

(** [s.str.len() > 0]: false where the value is not a [str]. *)
Definition str_len_gt0 (s : series) : list bool :=
  map (fun c => match c with Str x => (0 <? String.length x)%nat | _ => false end)
      (values s).

(** A DataFrame: the column labels with their dtypes, and the rows. A
    row has one cell per column. *)
Record frame (L : Type) : Type :=
  mkFrame { cols : list (L * dtype); rows : list (list cell) }.
Arguments mkFrame {L} cols rows.
Arguments cols {L} f.
Arguments rows {L} f.

(** [df.columns] *)
Definition columns {L} (df : frame L) : list L := map fst (cols df).

(** [len(df)] *)
Definition len {L} (df : frame L) : nat := length (rows df).

(** [df.columns = labels] (the script gives as many labels as there
    are columns). *)
Fixpoint relabel {L M} (cs : list (L * dtype)) (labels : list M) : list (M * dtype) :=
  match cs, labels with
  | (_, d) :: r, l :: ls => (l, d) :: relabel r ls
  | _, _ => []
  end.

Definition set_columns {L M} (df : frame L) (labels : list M) : frame M :=
  mkFrame (relabel (cols df) labels) (rows df).

(** [c in df.columns] *)
Definition has_column (df : frame string) (c : string) : bool :=
  contains (columns df) c.

(** The positions at which a label occurs. *)
Fixpoint positions_from (i : nat) (c : string) (labels : list string) : list nat :=
  match labels with
  | [] => []
  | l :: r => (if String.eqb l c then [i] else []) ++ positions_from (S i) c r
  end.

Definition positions (df : frame string) (c : string) : list nat :=
  positions_from 0 c (columns df).

(** [df[c] = v] for a scalar [v] and a label that is not a column yet:
    a new last column. *)
Definition setitem_new (df : frame string) (c : string) (d : dtype) (v : cell)
  : frame string :=
  mkFrame (cols df ++ [(c, d)]) (map (fun r => r ++ [v]) (rows df)).

(** [df.insert(0, c, v)] for a scalar [v]. *)
Definition insert0 (df : frame string) (c : string) (d : dtype) (v : cell)
  : result (frame string) :=
  if has_column df c
  then Raise (ValueError ("cannot insert " ++ c ++ ", already exists"))
  else Ok (mkFrame ((c, d) :: cols df) (map (cons v) (rows df))).

(** [df.dropna(how="all")]: the rows with a cell that is not missing. *)
Definition dropna_all {L} (df : frame L) : frame L :=
  mkFrame (cols df) (filter (fun r => negb (forallb isna r)) (rows df)).

(** The column at position [j] as a Series. *)
Definition column_at {L} (df : frame L) (j : nat) : series :=
  mkSeries (nth j (map snd (cols df)) object)
           (map (fun r => nth j r NaN) (rows df)).

Fixpoint set_nth {A} (j : nat) (x : A) (l : list A) : list A :=
  match l, j with
  | [], _ => []
  | _ :: r, O => x :: r
  | y :: r, S k => y :: set_nth k x r
  end.

Fixpoint set_cells (j : nat) (rs : list (list cell)) (vs : list cell)
  : list (list cell) :=
  match rs, vs with
  | r :: rs', v :: vs' => set_nth j v r :: set_cells j rs' vs'
  | _, _ => rs
  end.

(** [df[c] = s] where [c] is the column at position [j] and [s] has one
    value per row. *)
Definition set_column_at {L} (df : frame L) (j : nat) (s : series) : frame L :=
  mkFrame
    (match nth_error (cols df) j with
     | Some (l, _) => set_nth j (l, s_dtype s) (cols df)
     | None => cols df
     end)
    (set_cells j (rows df) (values s)).

(** [df[mask]] for a boolean mask with one entry per row. *)
Fixpoint mask_rows (rs : list (list cell)) (mask : list bool) : list (list cell) :=
  match rs, mask with
  | r :: rs', b :: mask' => (if b then [r] else []) ++ mask_rows rs' mask'
  | _, _ => []
  end.

Definition getitem_mask {L} (df : frame L) (mask : list bool) : frame L :=
  mkFrame (cols df) (mask_rows (rows df) mask).

(** The position of the first column called [c]. *)
Fixpoint index_of (c : string) (labels : list string) : option nat :=
  match labels with
  | [] => None
  | l :: r => if String.eqb l c then Some 0 else option_map S (index_of c r)
  end.

(** The labels of [ls] that are not in [seen], once each, in order. *)
Fixpoint new_labels (seen ls : list string) : list string :=
  match ls with
  | [] => []
  | l :: r => if contains seen l then new_labels seen r
              else l :: new_labels (l :: seen) r
  end.

(** The columns of [pd.concat(frames)]: the union of the frames'
    labels, each where it is first seen. *)
Fixpoint union_columns (seen : list string) (frames : list (frame string))
  : list string :=
  match frames with
  | [] => []
  | f :: r => let n := new_labels seen (columns f) in
              n ++ union_columns (seen ++ n) r
  end.

(** The piece of a column in a frame: its dtype and its cells, or
    nothing where the frame has no such column. *)
Definition piece : Type := option (dtype * list cell).

Definition piece_of (f : frame string) (l : string) : piece :=
  option_map (fun j => (nth j (map snd (cols f)) object,
                        map (fun r => nth j r NaN) (rows f)))
             (index_of l (columns f)).

(** A piece that holds no value: an absent one, or one that is empty or
    all missing; a piece of integers is never taken as such. *)
Definition is_na (u : piece) : bool :=
  match u with
  | None => true
  | Some (int64, _) => false
  | Some (_, cells) => forallb isna cells
  end.

(** The common type of a list of dtypes (not empty). *)
Definition find_common_type (ds : list dtype) : dtype :=
  if existsb (dtype_eqb object) ds then object
  else if existsb (dtype_eqb float64) ds then float64
  else int64.

Definition ensure_dtype_can_hold_na (d : dtype) : dtype :=
  match d with int64 => float64 | _ => d end.

Definition dtypes_of (units : list piece) : list dtype :=
  flat_map (fun u => match u with Some (d, _) => [d] | None => [] end) units.

Definition has_none (units : list piece) : bool :=
  existsb (fun u => match u with None => true | Some _ => false end) units.

(** The dtype that pandas plans for the pieces of a column: the one
    they all have, else the common type of the pieces that hold a
    value (of all of them if none does), made able to hold NaN when a
    piece is absent. *)
Definition empty_dtype (units : list piece) : dtype :=
  let planned :=
    let live := dtypes_of (filter (fun u => negb (is_na u)) units) in
    let d := find_common_type (match live with
                               | [] => dtypes_of units
                               | _ => live
                               end) in
    if has_none units then ensure_dtype_can_hold_na d else d in
  match units with
  | Some (d, _) :: rest =>
      if forallb (fun u => match u with
                           | Some (d', _) => dtype_eqb d d'
                           | None => false
                           end) rest
      then d else planned
  | _ => planned
  end.

(** Whether pandas re-creates the piece as missing values of the
    planned dtype: it does so for a piece without value, unless the
    plan is a column of integers with no piece absent. *)
Definition recreated (units : list piece) (u : piece) : bool :=
  is_na u
  && match empty_dtype units with
     | int64 => has_none units
     | _ => true
     end.

(** The dtype of the column in the result: the common type of the
    pieces as they are concatenated, a re-created piece having the
    planned dtype. *)
Definition result_dtype (units : list piece) : dtype :=
  find_common_type
    (map (fun u => match u with
                   | Some (d, _) => if recreated units u
                                    then empty_dtype units else d
                   | None => empty_dtype units
                   end) units).

Definition concat_dtype (frames : list (frame string)) (l : string) : dtype :=
  result_dtype (map (fun f => piece_of f l) frames).

(** A cell cast to the dtype of its column: in a column of floats an
    integer becomes the float of the same value, and a missing value is
    NaN. *)
Definition astype_cell (d : dtype) (c : cell) : cell :=
  match d, c with
  | float64, Int z => Float (repr_float_of_int z)
  | float64, NA => NaN
  | _, _ => c
  end.

(** The cell of the result for the row [r] of [f] under [l]. *)
Definition concat_cell (frames : list (frame string)) (f : frame string)
    (r : list cell) (l : string) : cell :=
  let units := map (fun f => piece_of f l) frames in
  if recreated units (piece_of f l) then NaN
  else astype_cell (result_dtype units)
         (match index_of l (columns f) with
          | Some j => nth j r NaN
          | None => NaN
          end).

(** [pd.concat(frames, ignore_index=True)], for frames with distinct
    labels each: the rows of the frames one after the other, in the
    order of the list, every column with the common dtype of its
    pieces and its cells cast to it. *)
Definition concat (frames : list (frame string)) : frame string :=
  let labels := union_columns [] frames in
  mkFrame
    (map (fun l => (l, concat_dtype frames l)) labels)
    (flat_map (fun f => map (fun r => map (concat_cell frames f r) labels)
                            (rows f)) frames).

(** [df[labels]] for a list of labels: [KeyError] if one is not a
    column. *)
Fixpoint lookup_all (df : frame string) (labels : list string) : result (list nat) :=
  match labels with
  | [] => Ok []
  | l :: r =>
      match index_of l (columns df) with
      | None => Raise (KeyError l)
      | Some j => match lookup_all df r with
                  | Ok js => Ok (j :: js)
                  | Raise e => Raise e
                  end
      end
  end.

Definition getitem_list (df : frame string) (labels : list string)
  : result (frame string) :=
  match lookup_all df labels with
  | Raise e => Raise e
  | Ok js =>
      Ok (mkFrame (map (fun j => nth j (cols df) ("", object)) js)
                  (map (fun r => map (fun j => nth j r NaN) js) (rows df)))
  end.

(** The text of a cell in a CSV file: a missing value is written as the
    empty field. *)
Definition csv_field (c : cell) : string :=
  match c with
  | Str s => s
  | Int z => str_of_int z
  | Float r => r
  | NaN | NA => ""
  end.

(** A CSV file as the records that a reader gets from it, each a list
    of fields. *)
Definition csv : Type := list (list string).

(** [df.to_csv(path, index=False)]: a header record with the column
    labels, then one record per row; no index field. *)
Definition to_csv (df : frame string) : csv :=
  columns df :: map (map csv_field) (rows df).

End Pandas.

(** ** extract.py *)
Module Extract.
Import Py Bs4 Pandas.
Open Scope result_scope.

(** H2 headings that are not countries. A Python [set]: its elements in
    the order of the literal. *)
Definition NON_COUNTRY_H2 : list string :=
  ["See also"; "References"; "Further reading"; "External links"; "Notes";
   "Citations"].

(** A tag object is always truthy, so [if span] only tests for [None]. *)
Definition get_headline_text {T} (h : option (tag T)) : option string :=
  match h with
  | None => None
  | Some h =>
      let span := find "span" "mw-headline" (markup h) in
      Some (strip (match span with
                   | Some span => get_text_strip span
                   | None => get_text_strip (markup h)
                   end))
  end.

(** A column label as [read_html] gives it: the text of a header cell,
    a number when the table has no header row, or a tuple of texts when
    the header has several rows (a tuple has at least one part). *)
Inductive label : Type :=
| LStr (s : string)
| LInt (z : Z)
| LTuple (part : string) (parts : list string).

Definition ren : list (string * string) :=
  [ ("Title ", "Title");
    ("Title", "Title");
    ("Author(s)", "Author(s)");
    ("Authors", "Author(s)");
    ("Year published", "Year published");
    ("Year of publication", "Year published");
    ("Publication year", "Year published");
    ("Year banned", "Year banned");
    ("Year unbanned", "Year unbanned");
    ("Type", "Type");
    ("Notes", "Notes");
    ("Reason", "Notes");
    ("Reasons", "Notes");
    ("Publisher", "Publisher");
    ("Language", "Language");
    ("Genre", "Genre");
    ("Country", "Country of origin") ].

(** [d.get(k, default)] *)
Definition dict_get (d : list (string * string)) (k default : string) : string :=
  match List.find (fun kv => String.eqb (fst kv) k) d with
  | Some kv => snd kv
  | None => default
  end.

(** [next((x for x in c if x and x != ""), c[-1])] for the tuple
    [(part, *parts)]. *)
Definition first_part (part : string) (parts : list string) : string :=
  match List.find (fun x => truthy x && negb (x =? "")) (part :: parts) with
  | Some x => x
  | None => List.last parts part
  end.

Definition normalize_colname (c : label) : string :=
  let c := match c with
           | LTuple part parts => first_part part parts
           | LStr s => s
           | LInt z => str_of_int z
           end in
  let c := strip c in
  dict_get ren c c.

Definition normalize_colnames (cols : list label) : list string :=
  map normalize_colname cols.

(** What [pd.read_html(str(tbl), flavor="lxml")[0]] gives for a table:
    a frame, or the exception it raises. *)
Definition read_html_result : Type := result (frame label).

(** The page: the nodes before the content body, and the body if the
    page has one ([soup.select_one] gives [None] otherwise). *)
Record page : Type :=
  mkPage { preamble : list (node read_html_result);
           content : option (list (node read_html_result)) }.

Definition expected : list string :=
  ["Title"; "Author(s)"; "Year published"; "Year banned"; "Year unbanned";
   "Type"; "Notes"].

Definition first : list string :=
  ["Country"; "Subdivision"; "Title"; "Author(s)"; "Year published";
   "Year banned"; "Year unbanned"; "Type"; "Notes"].

Definition csv_path : string := "banned_books_by_governments_by_country.csv".

(** The outside of the script: the files and the lines printed. *)
Record world : Type :=
  mkWorld { files : list (string * csv); stdout : list string }.

Definition write_file (path : string) (data : csv) (w : world) : world :=
  mkWorld ((path, data) :: files w) (stdout w).

Definition print (line : string) (w : world) : world :=
  mkWorld (files w) (stdout w ++ [line]).

Definition read_file (path : string) (w : world) : option csv :=
  option_map snd (List.find (fun kv => String.eqb (fst kv) path) (files w)).

(** The exit status of the process: 1 after an exception that nothing
    caught. *)
Definition exit_status (raised : option exn) : Z :=
  match raised with Some _ => 1%Z | None => 0%Z end.

(** [for x in xs: acc = body(acc, x)], stopping at an exception. *)
Fixpoint for_each {A X} (body : A -> X -> result A) (xs : list X) (acc : A)
  : result A :=
  match xs with
  | [] => Ok acc
  | x :: r => acc' <- body acc x ;; for_each body r acc'
  end.

(** Lines 98-100. [df[c]] is a Series when one column is called [c],
    and a DataFrame, which has no [dtype], when several are. *)
Definition clean_column (df : frame string) (c : string) : result (frame string) :=
  match positions df c with
  | [j] =>
      if dtype_eqb (s_dtype (column_at df j)) object
      then Ok (set_column_at df j
                 (replace "nan" "" (str_strip (astype_str (column_at df j)))))
      else Ok df
  | [] => Raise (KeyError c)
  | _ => Raise (AttributeError "'DataFrame' object has no attribute 'dtype'")
  end.

(** Line 103. *)
Definition drop_untitled (df : frame string) : result (frame string) :=
  match positions df "Title" with
  | [j] => Ok (getitem_mask df (str_len_gt0 (astype_str (column_at df j))))
  | [] => Raise (KeyError "Title")
  | _ => Raise (AttributeError "'DataFrame' object has no attribute 'str'")
  end.

(** Lines 87-90. *)
Definition add_expected (df : frame string) : frame string :=
  fold_left
    (fun df col => if negb (has_column df col)
                   then setitem_new df col object NA else df)
    expected df.

(** Lines 85-90: the frame on which the two headings are inserted. *)
Definition renamed (df : frame label) : frame string :=
  let df := set_columns df (normalize_colnames (columns df)) in
  add_expected df.

(** Lines 85-94: the frame of a table with its headings in front. *)
Definition with_headings (country : string) (subdivision : option string)
    (df : frame label) : result (frame string) :=
  let df := renamed df in
  df <- insert0 df "Subdivision" object
          (match subdivision with
           | Some s => if truthy s then Str s else NA
           | None => NA
           end) ;;
  insert0 df "Country" object (Str country).

(** Lines 85-103: the frame of one table, once read. *)
Definition table_frame (country : string) (subdivision : option string)
    (df : frame label) : result (frame string) :=
  df <- with_headings country subdivision df ;;
  let df := dropna_all df in
  df <- for_each clean_column (columns df) df ;;
  drop_untitled df.

Section Run.

(** The elements of [NON_COUNTRY_H2] in the order this run of the
    interpreter holds them (the order of a [set] of strings follows
    the hash seed of the run). *)
Variable non_country_h2 : list string.

(** Lines 65-68: [Some country] when the table is kept. *)
Definition country_of (prev : list (node read_html_result)) : option string :=
  let h2 := find_previous "h2" prev in
  let country := get_headline_text h2 in
  match country with
  | None => None
  | Some country =>
      if negb (truthy country) || contains non_country_h2 country then None
      else Some country
  end.

(** Lines 71-77. *)
Definition subdivision_of (prev : list (node read_html_result)) : option string :=
  let h2 := find_previous "h2" prev in
  let h3 := find_previous "h3" prev in
  match h3 with
  | None => None
  | Some h3' =>
      let h3s_h2 := find_previous "h2" (before h3') in
      if eq_op h3s_h2 h2 then get_headline_text h3 else None
  end.

(** The body of the loop over the tables (lines 64-105): the frames
    collected so far, then one more table. *)
Definition loop_body (frames : list (frame string))
    (tbl : list (node read_html_result) * read_html_result)
  : result (list (frame string)) :=
  let (prev, read_html) := tbl in
  match country_of prev with
  | None => Ok frames
  | Some country =>
      let subdivision := subdivision_of prev in
      match read_html with
      | Raise e => if is_ValueError e then Ok frames else Raise e
      | Ok df =>
          df <- table_frame country subdivision df ;;
          Ok (frames ++ [df])
      end
  end.

(** Lines 60-105. *)
Definition collect (p : list (node read_html_result))
    (body : list (node read_html_result)) : result (list (frame string)) :=
  for_each loop_body (select_tables "wikitable" (rev p) body) [].

(** Lines 110-115. *)
Definition assemble (frames : list (frame string)) : result (frame string) :=
  let out := concat frames in
  let rest := filter (fun c => negb (contains first c)) (columns out) in
  getitem_list out (first ++ rest).

(** [main()] after [fetch_html] and the parse of the markup: the world
    after the run, and the exception that ended it, if any. *)
Definition main (p : page) (w : world) : world * option exn :=
  match content p with
  | None => (w, Some (RuntimeError "Could not locate page body."))
  | Some body =>
      match collect (preamble p) body with
      | Raise e => (w, Some e)
      | Ok [] =>
          (w, Some (RuntimeError
             "No tables found under country sections. The page layout may have changed."))
      | Ok frames =>
          match assemble frames with
          | Raise e => (w, Some e)
          | Ok out =>
              let w := write_file csv_path (to_csv out) w in
              (print ("Wrote " ++ str_of_int (Z.of_nat (len out)) ++ " rows -> "
                      ++ csv_path) w, None)
          end
      end
  end.

End Run.

End Extract.

(** ** The specification's reading of the pipeline *)
Module Spec.
Import Py Bs4 Pandas Extract.

(** The first part of a composite header that is not empty. *)
Fixpoint first_nonempty (parts : list string) : option string :=
  match parts with
  | [] => None
  | x :: r => match x with
              | EmptyString => first_nonempty r
              | _ => Some x
              end
  end.

(** A header as one text: a composite header is its first non-empty
    part, else its last part. *)
Definition flatten (c : label) : string :=
  match c with
  | LStr s => s
  | LInt z => str_of_int z
  | LTuple part parts =>
      match first_nonempty (part :: parts) with
      | Some x => x
      | None => List.last (part :: parts) part
      end
  end.

(** The header variants and their canonical names; any other header is
    kept. *)
Definition rename (h : string) : string :=
  if h =? "Authors" then "Author(s)"
  else if h =? "Author(s)" then "Author(s)"
  else if h =? "Year of publication" then "Year published"
  else if h =? "Publication year" then "Year published"
  else if h =? "Reason" then "Notes"
  else if h =? "Reasons" then "Notes"
  else if h =? "Country" then "Country of origin"
  else h.

(** A list without its repetitions, each element where it is first
    seen. *)
Fixpoint first_seen (l : list string) : list string :=
  match l with
  | [] => []
  | x :: r => x :: filter (fun y => negb (String.eqb y x)) (first_seen r)
  end.

(** The header of the output: the nine canonical columns, then every
    other column of the frames in first-seen order. *)
Definition header (frames : list (frame string)) : list string :=
  first ++ filter (fun c => negb (contains first c))
                  (first_seen (flat_map columns frames)).

(** The cell of a row of [f] under the label [l]: missing when [f] has
    no such column. *)
Definition cell_under (f : frame string) (r : list cell) (l : string) : cell :=
  match index_of l (columns f) with
  | Some j => nth j r NaN
  | None => NaN
  end.

(** A cell as the file holds it: cast to the dtype that its column has
    once the frames are put together, so that an integer reads as a
    float where another frame holds floats in that column or lacks the
    column. *)
Definition written (frames : list (frame string)) (l : string) (c : cell) : cell :=
  astype_cell (concat_dtype frames l) c.

(** The records of the output: the rows of the frames, frame after
    frame, each laid out under the header. *)
Definition records (frames : list (frame string)) : list (list string) :=
  flat_map (fun f => map (fun r => map (fun l =>
                                          csv_field (written frames l
                                                       (cell_under f r l)))
                                       (header frames))
                         (rows f))
           frames.

(** The subdivision of a table, with the comparison of the two headings
    by node identity: the nearest level-2 heading before the table
    counts only if the level-1 heading before it is the very node that
    names the country. *)
Definition subdivision_by_identity (prev : list (node read_html_result))
  : option string :=
  match find_previous "h3" prev with
  | None => None
  | Some h3 =>
      if same_node (find_previous "h2" (before h3)) (find_previous "h2" prev)
      then get_headline_text (Some h3) else None
  end.

(** What one table adds to the frames. *)
Definition contribution (nc : list string)
    (tbl : list (node read_html_result) * read_html_result)
  : list (frame string) :=
  match loop_body nc [] tbl with
  | Ok frames => frames
  | Raise _ => []
  end.

(** The line that the script prints once the file is written. *)
Definition report (frames : list (frame string)) : string :=
  "Wrote " ++ str_of_int (Z.of_nat (length (records frames))) ++ " rows -> "
  ++ csv_path.

Definition no_tables_message : string :=
  "No tables found under country sections. The page layout may have changed.".

(** What every collected frame has: distinct labels, the nine canonical
    columns among them. *)
Definition canonical (f : frame string) : Prop :=
  NoDup (columns f) /\ incl first (columns f).

(** Every failure to read an accepted table is skipped: the frames are
    as before and the loop goes on. *)
Definition skips_any_failure : Prop :=
  forall frames prev country e,
    country_of NON_COUNTRY_H2 prev = Some country ->
    loop_body NON_COUNTRY_H2 frames (prev, Raise e) = Ok frames.

(** The field of record [r] under the column [c] of a CSV file with
    header [h]. *)
Definition field (h : list string) (r : list string) (c : string) : string :=
  match index_of c h with
  | Some j => nth j r ""
  | None => ""
  end.

(** Every record has a Title and a Country that are not empty. *)
Definition titled_and_located (file : csv) : Prop :=
  match file with
  | [] => True
  | h :: recs =>
      Forall (fun r => field h r "Title" <> "" /\ field h r "Country" <> "") recs
  end.

(** Every record is empty under the column [c]. *)
Definition empty_under (c : string) (file : csv) : Prop :=
  match file with
  | [] => True
  | h :: recs => Forall (fun r => field h r c = "") recs
  end.

End Spec.

(** ** Sample pages *)
Module Samples.
Import Py Bs4 Pandas Extract.

Definition heading (name text : string) : node read_html_result :=
  Elem (Tag name [] [] [Text text]).

Definition wikitable (r : read_html_result) : node read_html_result :=
  Table ["wikitable"] r.

Definition nothing : world := mkWorld [] [].

(** The world after an earlier run that wrote one record. *)
Definition earlier : world :=
  mkWorld [(csv_path, [first])]
          ["Wrote 0 rows -> banned_books_by_governments_by_country.csv"].

(** A table with a title and an author per row and no other column. *)
Definition two_columns : frame label :=
  mkFrame [(LStr "Title", object); (LStr "Authors", object)]
          [[Str "Ulysses"; Str " James Joyce "]].

(** The same table once its columns are renamed and completed and the
    headings "Canada" and "Quebec" are in front. *)
Definition ulysses_with_headings : frame string :=
  mkFrame [("Country", object); ("Subdivision", object); ("Title", object);
           ("Author(s)", object); ("Year published", object);
           ("Year banned", object); ("Year unbanned", object);
           ("Type", object); ("Notes", object)]
          [[Str "Canada"; Str "Quebec"; Str "Ulysses"; Str " James Joyce ";
            NA; NA; NA; NA; NA]].

(** The frame of that table under "Canada" and "Quebec", cleaned. *)
Definition ulysses_frame : frame string :=
  mkFrame [("Country", object); ("Subdivision", object); ("Title", object);
           ("Author(s)", object); ("Year published", object);
           ("Year banned", object); ("Year unbanned", object);
           ("Type", object); ("Notes", object)]
          [[Str "Canada"; Str "Quebec"; Str "Ulysses"; Str "James Joyce";
            Str "<NA>"; Str "<NA>"; Str "<NA>"; Str "<NA>"; Str "<NA>"]].

(** A table whose titles are numbers or blank: [read_html] gives such a
    column the dtype [float64], and NaN for the blank cell. *)
Definition numeric_titles : frame label :=
  mkFrame [(LStr "Title", float64); (LStr "Author(s)", object)]
          [[Float "1984.0"; Str "George Orwell"]; [NaN; Str "Anonymous"]].

(** [<h2>Canada</h2> <h3>Quebec</h3> <h2>Canada</h2> <table>]: the
    second heading repeats the markup of the first. *)
Definition canada_twice : list (node read_html_result) :=
  [heading "h2" "Canada"; heading "h3" "Quebec"; heading "h2" "Canada";
   wikitable (Ok two_columns)].

(** [<h2>Canada</h2> <h3>Quebec</h3> <h2>France</h2> <table>] *)
Definition canada_then_france : list (node read_html_result) :=
  [heading "h2" "Canada"; heading "h3" "Quebec"; heading "h2" "France";
   wikitable (Ok two_columns)].

(** [<h2>Canada</h2> <h3>Quebec</h3> <table>] *)
Definition canada_quebec : list (node read_html_result) :=
  [heading "h2" "Canada"; heading "h3" "Quebec"; wikitable (Ok two_columns)].

Definition blank_title_page : page :=
  mkPage [] (Some [heading "h2" "Canada"; wikitable (Ok numeric_titles)]).

(** A section whose heading reads [nan]. *)
Definition nan_page : page :=
  mkPage [] (Some [heading "h2" "nan"; wikitable (Ok two_columns)]).

Definition no_notes_page : page :=
  mkPage [] (Some [heading "h2" "Canada"; wikitable (Ok two_columns)]).

(** A table with a caption and no rows: [read_html] returns the empty
    list and [[0]] raises [IndexError]. *)
Definition caption_only_page : page :=
  mkPage [] (Some [heading "h2" "Canada";
                   wikitable (Raise (IndexError "list index out of range"));
                   wikitable (Ok two_columns)]).

(** A table in which nothing matches: [read_html] raises
    [ValueError]. *)
Definition unreadable_page : page :=
  mkPage [] (Some [heading "h2" "Canada";
                   wikitable (Raise (ValueError "No tables found"));
                   wikitable (Ok two_columns)]).

(** A table with a publisher and a reason per row besides the title. *)
Definition three_columns : frame label :=
  mkFrame [(LStr "Title", object); (LStr "Publisher", object);
           (LStr "Reason", object)]
          [[Str "Candide"; Str "Cramer"; Str "Obscenity"];
           [NaN; Str "Unknown"; NaN]].

Definition two_tables_page : page :=
  mkPage [heading "h1" "List of books"]
         (Some [heading "h2" "Canada"; heading "h3" "Quebec";
                wikitable (Ok two_columns);
                heading "h2" "France"; wikitable (Ok three_columns);
                heading "h2" "References"; wikitable (Ok two_columns)]).

(** The frames that the loop collects on [two_tables_page]. *)
Definition two_frames : list (frame string) :=
  [ mkFrame [("Country", object); ("Subdivision", object); ("Title", object);
             ("Author(s)", object); ("Year published", object);
             ("Year banned", object); ("Year unbanned", object);
             ("Type", object); ("Notes", object)]
            [[Str "Canada"; Str "Quebec"; Str "Ulysses"; Str "James Joyce";
              Str "<NA>"; Str "<NA>"; Str "<NA>"; Str "<NA>"; Str "<NA>"]];
    mkFrame [("Country", object); ("Subdivision", object); ("Title", object);
             ("Publisher", object); ("Notes", object); ("Author(s)", object);
             ("Year published", object); ("Year banned", object);
             ("Year unbanned", object); ("Type", object)]
            [[Str "France"; Str "<NA>"; Str "Candide"; Str "Cramer";
              Str "Obscenity"; Str "<NA>"; Str "<NA>"; Str "<NA>"; Str "<NA>";
              Str "<NA>"]] ].

(** A table with the number of pages of each book, all of them
    numbers: [read_html] gives that column the dtype [int64]. *)
Definition with_pages : frame label :=
  mkFrame [(LStr "Title", object); (LStr "Pages", int64)]
          [[Str "Ulysses"; Int 730]].

(** A table whose pages are told in words. *)
Definition with_pages_in_words : frame label :=
  mkFrame [(LStr "Title", object); (LStr "Pages", object)]
          [[Str "Candide"; Str "about 130"]].

(** A table that counts pages, then one that does not. *)
Definition pages_then_none : page :=
  mkPage [] (Some [heading "h2" "Canada"; wikitable (Ok with_pages);
                   heading "h2" "France"; wikitable (Ok two_columns)]).

(** A table that counts pages, then one that tells them in words. *)
Definition pages_then_words : page :=
  mkPage [] (Some [heading "h2" "Canada"; wikitable (Ok with_pages);
                   heading "h2" "France"; wikitable (Ok with_pages_in_words)]).

(** The frames that the loop collects on [pages_then_none]. *)
Definition pages_frames : list (frame string) :=
  [ mkFrame [("Country", object); ("Subdivision", object); ("Title", object);
             ("Pages", int64); ("Author(s)", object);
             ("Year published", object); ("Year banned", object);
             ("Year unbanned", object); ("Type", object); ("Notes", object)]
            [[Str "Canada"; Str "<NA>"; Str "Ulysses"; Int 730; Str "<NA>";
              Str "<NA>"; Str "<NA>"; Str "<NA>"; Str "<NA>"; Str "<NA>"]];
    mkFrame [("Country", object); ("Subdivision", object); ("Title", object);
             ("Author(s)", object); ("Year published", object);
             ("Year banned", object); ("Year unbanned", object);
             ("Type", object); ("Notes", object)]
            [[Str "France"; Str "<NA>"; Str "Ulysses"; Str "James Joyce";
              Str "<NA>"; Str "<NA>"; Str "<NA>"; Str "<NA>"; Str "<NA>"]] ].

Definition no_tables_page : page :=
  mkPage [heading "h1" "List of books"] (Some [heading "h2" "Canada"]).

End Samples.

(** ** The fetch and the whole script *)
Module Script.
Import Py Bs4 Pandas Extract.

Definition URL : string :=
  "https://en.wikipedia.org/wiki/List_of_books_banned_by_governments".

(** A response of [requests.get]: its status code and its body as
    text. *)
Record response : Type := mkResponse { status_code : Z; text : string }.

(** What ends [fetch_html] early: the request itself fails, or
    [raise_for_status] raises for the status of the response. *)
Inductive request_error : Type :=
| ConnectionError (msg : string)
| HTTPError (status : Z).

(** The network as [requests.get] sees it: for a URL and the headers of
    the request, a response or a failure of the connection. *)
Definition network : Type :=
  string -> list (string * string) -> response + string.

(** [r.raise_for_status()]: a status from 400 to 599 is an error,
    client error below 500 and server error from 500 on. *)
Definition raise_for_status (r : response) : option request_error :=
  if ((400 <=? status_code r) && (status_code r <? 500))%Z
  then Some (HTTPError (status_code r))
  else if ((500 <=? status_code r) && (status_code r <? 600))%Z
       then Some (HTTPError (status_code r))
       else None.

(** Lines 48-51. *)
Definition fetch_html (net : network) (url : string) : string + request_error :=
  match net url [("User-Agent", "Mozilla/5.0")] with
  | inr msg => inr (ConnectionError msg)
  | inl r =>
      match raise_for_status r with
      | Some e => inr e
      | None => inl (text r)
      end
  end.

(** What ends the script: the fetch, or an exception of [main]. *)
Inductive failure : Type :=
| Fetch (e : request_error)
| Raised (e : exn).

(** The script from line 54 on: [soup] stands for
    [BeautifulSoup(html, "lxml")] with the lookups of line 56, which give
    the page of a markup text. *)
Definition script (net : network) (soup : string -> page) (w : world)
  : world * option failure :=
  match fetch_html net URL with
  | inr e => (w, Some (Fetch e))
  | inl html =>
      let (w', raised) := main NON_COUNTRY_H2 (soup html) w in
      (w', option_map Raised raised)
  end.

End Script.

(** ** The cleanup of a frame, row by row *)
Module Cleanup.
Import Py Bs4 Pandas Extract.

(** A frame whose rows have one cell per column. *)
Definition well_formed {L} (df : frame L) : Prop :=
  Forall (fun r => length r = length (cols df)) (rows df).

(** What line 100 makes of a cell: its text, trimmed, and empty if that
    reads "nan". *)
Definition clean_text (c : cell) : cell :=
  let t := strip (str_of_cell c) in
  Str (if String.eqb t "nan" then "" else t).

(** A row with the cells of its first [n] columns cleaned, those of
    dtype [object] that is. *)
Fixpoint clean_upto (n : nat) (cs : list (string * dtype)) (r : list cell)
  : list cell :=
  match n, cs, r with
  | S n', (_, d) :: cs', c :: r' =>
      (if dtype_eqb d object then clean_text c else c) :: clean_upto n' cs' r'
  | _, _, _ => r
  end.

Definition clean_row (cs : list (string * dtype)) (r : list cell) : list cell :=
  clean_upto (length cs) cs r.

(** The test of line 103 on a row whose Title is at position [j]. *)
Definition titled (j : nat) (r : list cell) : bool :=
  (0 <? String.length (str_of_cell (nth j r NaN)))%nat.

(** The columns and rows of a table once the two headings are in
    front. *)
Definition headed_cols (df : frame label) : list (string * dtype) :=
  ("Country", object) :: ("Subdivision", object) :: cols (renamed df).

Definition subdivision_cell (subdivision : option string) : cell :=
  match subdivision with
  | Some s => if truthy s then Str s else NA
  | None => NA
  end.

Definition headed_rows (country : string) (subdivision : option string)
    (df : frame label) : list (list cell) :=
  map (fun r => Str country :: subdivision_cell subdivision :: r)
      (rows (renamed df)).

(** The frame of a table in one pass over its rows: the headings in
    front, every cell of an object column cleaned, the rows without a
    title dropped. *)
Definition cleaned_frame (country : string) (subdivision : option string)
    (df : frame label) (title : nat) : frame string :=
  mkFrame (headed_cols df)
          (filter (titled title)
                  (map (clean_row (headed_cols df))
                       (headed_rows country subdivision df))).

(** A table with a Notes and a Reason column, which both become
    "Notes". *)
Definition notes_and_reason : frame label :=
  mkFrame [(LStr "Title", object); (LStr "Notes", object);
           (LStr "Reason", object)]
          [[Str "Candide"; Str "satire"; Str "Obscenity"]].

(** A table with a column that is called "Subdivision" already. *)
Definition with_subdivision : frame label :=
  mkFrame [(LStr "Title", object); (LStr " Subdivision", object)]
          [[Str "Candide"; Str "Geneva"]].

(** The nodes that the script looks at: the tables that
    [content.select("table.wikitable")] selects, and the headings that
    [find_previous("h2")] and [find_previous("h3")] stop at. *)
Definition read_by_script {T} (n : node T) : bool :=
  match n with
  | Table cs _ => contains cs "wikitable"
  | Elem (Tag m _ _ _) => String.eqb m "h2" || String.eqb m "h3"
  | Elem _ => false
  end.

(** A heading as it sits in the page without the other nodes. *)
Definition essential_tag {T} (t : tag T) : tag T :=
  mkTag (filter read_by_script (before t)) (markup t).

(** The page without the nodes that the script does not look at. *)
Definition essential (p : page) : page :=
  mkPage (filter read_by_script (preamble p))
         (option_map (filter read_by_script) (content p)).

(** A page with a paragraph and a table of another class among its
    headings and its table. *)
Definition page_with_more : page :=
  mkPage [Elem (Text "Banned books"); Samples.heading "h2" "Contents"]
         (Some [Elem (Tag "p" [] [] [Text "This is a list."]);
                Samples.heading "h2" "Canada";
                Table ["infobox"] (Ok Samples.two_columns);
                Samples.heading "h3" "Quebec";
                Elem (Comment "table");
                Samples.wikitable (Ok Samples.two_columns)]).

End Cleanup.

Import Py Bs4 Pandas Extract.

(** ** Facts about strings *)

Fixpoint last_char (s : string) : option ascii :=
  match s with
  | EmptyString => None
  | String c r => match r with
                  | EmptyString => Some c
                  | _ => last_char r
                  end
  end.

Lemma rstrip_last (s : string) (c : ascii) :
  last_char (rstrip s) = Some c -> isspace c = false.
Proof.
  induction s as [|a s IH]; simpl; [discriminate|].
  destruct (rstrip s) as [|b t] eqn:E.
  - destruct (isspace a) eqn:Ea; simpl; [discriminate|].
    intros H; injection H as <-; exact Ea.
  - intros H. apply IH. exact H.
Qed.

Lemma lstrip_last (s : string) (c : ascii) :
  last_char (lstrip s) = Some c -> last_char s = Some c.
Proof.
  induction s as [|a s IH]; simpl; [discriminate|].
  destruct (isspace a).
  - intros H. specialize (IH H). destruct s; [discriminate|exact IH].
  - simpl. auto.
Qed.

Lemma strip_last (s : string) (c : ascii) :
  last_char (strip s) = Some c -> isspace c = false.
Proof. intros H. apply (rstrip_last s), lstrip_last, H. Qed.

Lemma strip_not_padded (s : string) : strip s <> "Title ".
Proof.
  intros H. pose proof (strip_last s " "%char) as L.
  rewrite H in L. specialize (L eq_refl). discriminate L.
Qed.

(** ** Column names *)

Lemma first_part_flatten (part : string) (parts : list string) :
  first_part part parts = Spec.flatten (LTuple part parts).
Proof.
  unfold first_part, Spec.flatten.
  assert (F : forall l, List.find (fun x => truthy x && negb (x =? "")) l
                        = Spec.first_nonempty l).
  { induction l as [|x l IH]; simpl; [reflexivity|].
    destruct x; simpl; [exact IH|reflexivity]. }
  rewrite F. destruct (Spec.first_nonempty (part :: parts)); [reflexivity|].
  simpl. destruct parts; reflexivity.
Qed.

Ltac split_on_keys s :=
  repeat match goal with
         | |- context [String.eqb ?k s] =>
             destruct (String.eqb_spec k s); [subst s|]
         | |- context [String.eqb s ?k] =>
             destruct (String.eqb_spec s k); [subst s|]
         end.

Lemma ren_get_rename (s : string) :
  s <> "Title " -> dict_get ren s s = Spec.rename s.
Proof.
  intros P. unfold dict_get, ren, Spec.rename. cbn [List.find fst snd].
  split_on_keys s; try reflexivity; try congruence.
Qed.

Lemma ren_get_not_country (s : string) : dict_get ren s s <> "Country".
Proof.
  unfold dict_get, ren. cbn [List.find fst snd].
  split_on_keys s; cbn [snd]; congruence.
Qed.

Lemma normalize_colname_not_country (c : label) : normalize_colname c <> "Country".
Proof. unfold normalize_colname. apply ren_get_not_country. Qed.

(** C6. [normalize_colnames] flattens each header (a composite header
    is its first non-empty part, else its last part), trims it, and
    looks the result up by exact match: "Authors" and "Author(s)" give
    "Author(s)", "Year of publication" and "Publication year" give
    "Year published", "Reason" and "Reasons" give "Notes", "Country"
    gives "Country of origin", and every other header is kept. *)
Theorem normalize_colnames_exact (cols : list label) :
  normalize_colnames cols
  = map (fun c => Spec.rename (strip (Spec.flatten c))) cols.
Proof.
  unfold normalize_colnames. apply map_ext. intros c.
  unfold normalize_colname.
  rewrite ren_get_rename by apply strip_not_padded.
  destruct c; simpl Spec.flatten; try reflexivity.
  rewrite first_part_flatten. reflexivity.
Qed.

(** ** Frames *)

Lemma contains_In (xs : list string) (x : string) :
  contains xs x = true <-> In x xs.
Proof.
  unfold contains. rewrite existsb_exists. split.
  - intros (y & Hy & E). apply String.eqb_eq in E. subst. exact Hy.
  - intros H. exists x. split; [exact H|apply String.eqb_refl].
Qed.

Lemma contains_not_In (xs : list string) (x : string) :
  contains xs x = false <-> ~ In x xs.
Proof.
  rewrite <- contains_In. destruct (contains xs x); split; congruence.
Qed.

Lemma relabel_columns {L M} (cs : list (L * dtype)) (f : L -> M) :
  map fst (relabel cs (map f (map fst cs))) = map f (map fst cs).
Proof.
  induction cs as [|[l d] cs IH]; simpl; [reflexivity|]. now rewrite IH.
Qed.

Lemma set_columns_columns {L M} (df : frame L) (f : L -> M) :
  columns (set_columns df (map f (columns df))) = map f (columns df).
Proof. unfold set_columns, columns. simpl. apply relabel_columns. Qed.

Lemma fill_columns (exp : list string) (df : frame string) (x : string) :
  In x (columns (fold_left
                   (fun df col => if negb (has_column df col)
                                  then setitem_new df col object NA else df)
                   exp df))
  <-> In x (columns df) \/ In x exp.
Proof.
  revert df. induction exp as [|c exp IH]; intros df; simpl.
  - tauto.
  - rewrite IH. clear IH. destruct (has_column df c) eqn:E; simpl.
    + apply contains_In in E. split; [tauto|].
      intros [H|[H|H]]; subst; tauto.
    + clear E. unfold columns at 1, setitem_new. simpl.
      rewrite map_app, in_app_iff. simpl. fold (columns df). tauto.
Qed.

Lemma add_expected_columns (df : frame string) (x : string) :
  In x (columns (add_expected df)) <-> In x (columns df) \/ In x expected.
Proof. apply fill_columns. Qed.

Lemma insert0_ok (df : frame string) (c : string) (d : dtype) (v : cell) :
  has_column df c = false ->
  insert0 df c d v = Ok (mkFrame ((c, d) :: cols df) (map (cons v) (rows df))).
Proof. intros H. unfold insert0. now rewrite H. Qed.

Lemma insert0_inv (df df' : frame string) (c : string) (d : dtype) (v : cell) :
  insert0 df c d v = Ok df' ->
  has_column df c = false
  /\ df' = mkFrame ((c, d) :: cols df) (map (cons v) (rows df)).
Proof.
  unfold insert0. destruct (has_column df c); [discriminate|].
  intros H. injection H as <-. auto.
Qed.

Lemma renamed_no_country (df : frame label) :
  has_column (renamed df) "Country" = false.
Proof.
  apply contains_not_In. unfold renamed. rewrite add_expected_columns.
  unfold normalize_colnames. rewrite set_columns_columns.
  intros [H|H].
  - apply in_map_iff in H. destruct H as (c & E & _).
    exact (normalize_colname_not_country c E).
  - simpl in H. intuition discriminate.
Qed.

Lemma with_headings_inv (country : string) (subdivision : option string)
    (df : frame label) (d : frame string) :
  with_headings country subdivision df = Ok d ->
  exists v, d = mkFrame (("Country", object) :: ("Subdivision", object)
                           :: cols (renamed df))
                        (map (fun r => Str country :: v :: r) (rows (renamed df))).
Proof.
  unfold with_headings. cbv zeta.
  set (v := match subdivision with
            | Some s => if truthy s then Str s else NA
            | None => NA
            end).
  destruct (insert0 (renamed df) "Subdivision" object v) as [d1|e] eqn:E1;
    unfold bind; [|discriminate].
  apply insert0_inv in E1. destruct E1 as [_ ->].
  intros H. apply insert0_inv in H. destruct H as [_ ->].
  exists v. cbn [cols rows]. f_equal. rewrite map_map. reflexivity.
Qed.

(** C10. After the headers are renamed no column is called "Country",
    so [df.insert(0, "Country", country)] never raises: the only
    exception of lines 85-94 is the one for a column that is already
    called "Subdivision". *)
Theorem country_never_duplicate (country : string) (subdivision : option string)
    (df : frame label) :
  contains (normalize_colnames (columns df)) "Country" = false
  /\ has_column (renamed df) "Country" = false
  /\ match with_headings country subdivision df with
     | Ok d => columns d = "Country" :: "Subdivision" :: columns (renamed df)
     | Raise e => e = ValueError "cannot insert Subdivision, already exists"
     end.
Proof.
  split; [|split].
  - apply contains_not_In. intros H. apply in_map_iff in H.
    destruct H as (c & E & _). exact (normalize_colname_not_country c E).
  - apply renamed_no_country.
  - destruct (with_headings country subdivision df) as [d|e] eqn:E.
    + apply with_headings_inv in E. destruct E as (v & ->). reflexivity.
    + revert E. unfold with_headings. cbv zeta.
      destruct (has_column (renamed df) "Subdivision") eqn:S.
      * unfold insert0 at 1. rewrite S. unfold bind.
        intros H. injection H as <-. reflexivity.
      * rewrite (insert0_ok _ _ _ _ S). unfold bind.
        rewrite insert0_ok; [discriminate|].
        pose proof (renamed_no_country df) as N.
        unfold has_column, columns, contains in *. cbn [cols map fst existsb].
        rewrite N. reflexivity.
Qed.

(** C9. Once the Country column is in front, no row is empty
    throughout, and [dropna(how="all")] keeps every row of the table. *)
Theorem dropna_keeps_every_row (country : string) (subdivision : option string)
    (df : frame label) (d : frame string) :
  with_headings country subdivision df = Ok d ->
  dropna_all d = d /\ len (dropna_all d) = len (renamed df).
Proof.
  intros H. apply with_headings_inv in H. destruct H as (v & ->).
  assert (K : dropna_all
                (mkFrame (("Country", object) :: ("Subdivision", object)
                            :: cols (renamed df))
                   (map (fun r => Str country :: v :: r) (rows (renamed df))))
              = mkFrame (("Country", object) :: ("Subdivision", object)
                            :: cols (renamed df))
                   (map (fun r => Str country :: v :: r) (rows (renamed df)))).
  { unfold dropna_all. cbn [cols rows]. f_equal.
    induction (rows (renamed df)) as [|r rs IH]; [reflexivity|].
    cbn [map filter forallb isna andb negb]. now rewrite IH. }
  split; [exact K|]. rewrite K. unfold len. cbn [rows]. apply length_map.
Qed.

Lemma dropna_keeps_every_row_witness :
  with_headings "Canada" (Some "Quebec") Samples.two_columns
  = Ok Samples.ulysses_with_headings
  /\ dropna_all Samples.ulysses_with_headings = Samples.ulysses_with_headings
  /\ len (dropna_all Samples.ulysses_with_headings)
     = len (renamed Samples.two_columns).
Proof.
  split; [reflexivity|].
  apply (dropna_keeps_every_row "Canada" (Some "Quebec") Samples.two_columns).
  reflexivity.
Defined.

(** ** The frames that the loop collects *)

Lemma positions_count (c : string) (l : list string) (i : nat) :
  length (positions_from i c l) = count_occ string_dec l c.
Proof.
  revert i. induction l as [|x l IH]; intros i; [reflexivity|].
  cbn [positions_from count_occ]. rewrite length_app, IH.
  destruct (String.eqb_spec x c), (string_dec x c); try contradiction;
    reflexivity.
Qed.

Lemma single_positions_NoDup (l : list string) :
  (forall c, In c l -> exists j, positions_from 0 c l = [j]) -> NoDup l.
Proof.
  intros H. apply (NoDup_count_occ' string_dec). intros c Hc.
  destruct (H c Hc) as [j E]. rewrite <- (positions_count c l 0), E. reflexivity.
Qed.

Lemma set_nth_labels {L} (cs : list (L * dtype)) (j : nat) (l : L) (d d' : dtype) :
  nth_error cs j = Some (l, d) -> map fst (set_nth j (l, d') cs) = map fst cs.
Proof.
  revert j. induction cs as [|[a b] cs IH]; intros [|j]; cbn; try discriminate.
  - intros H. injection H as -> ->. reflexivity.
  - intros H. now rewrite (IH j H).
Qed.

Lemma set_column_at_columns {L} (df : frame L) (j : nat) (s : series) :
  columns (set_column_at df j s) = columns df.
Proof.
  unfold columns, set_column_at. cbn [cols].
  destruct (nth_error (cols df) j) as [[l d]|] eqn:E; [|reflexivity].
  exact (set_nth_labels _ _ _ _ _ E).
Qed.

Lemma clean_column_inv (df df' : frame string) (c : string) :
  clean_column df c = Ok df' ->
  columns df' = columns df /\ exists j, positions df c = [j].
Proof.
  unfold clean_column.
  destruct (positions df c) as [|j [|k r]]; try discriminate.
  destruct (dtype_eqb _ _); intros H; injection H as <-;
    (split; [|now exists j]);
    [apply set_column_at_columns|reflexivity].
Qed.

Lemma clean_loop_inv (cs : list string) (df df' : frame string) :
  for_each clean_column cs df = Ok df' ->
  columns df' = columns df
  /\ forall c, In c cs -> exists j, positions df c = [j].
Proof.
  revert df. induction cs as [|c cs IH]; intros df; cbn [for_each].
  - intros H. injection H as <-. split; [reflexivity|]. intros c [].
  - destruct (clean_column df c) as [d1|e] eqn:E; unfold bind; [|discriminate].
    intros H. apply clean_column_inv in E. destruct E as [E1 E2].
    destruct (IH _ H) as [I1 I2]. split; [congruence|].
    intros x [<-|Hx]; [exact E2|].
    destruct (I2 x Hx) as [j Hj]. exists j.
    unfold positions in *. now rewrite <- E1.
Qed.

Lemma drop_untitled_columns (df df' : frame string) :
  drop_untitled df = Ok df' -> columns df' = columns df.
Proof.
  unfold drop_untitled.
  destruct (positions df "Title") as [|j [|k r]]; try discriminate.
  intros H. injection H as <-. reflexivity.
Qed.

Lemma table_frame_canonical (country : string) (subdivision : option string)
    (df : frame label) (d : frame string) :
  table_frame country subdivision df = Ok d -> Spec.canonical d.
Proof.
  unfold table_frame.
  destruct (with_headings country subdivision df) as [d1|e] eqn:E1;
    unfold bind at 1; [|discriminate].
  cbv zeta.
  destruct (for_each clean_column (columns (dropna_all d1)) (dropna_all d1))
    as [d2|e] eqn:E2; unfold bind; [|discriminate].
  intros E3. apply drop_untitled_columns in E3.
  apply clean_loop_inv in E2. destruct E2 as [C2 U].
  assert (C1 : columns (dropna_all d1) = columns d1) by reflexivity.
  assert (K : columns d1 = "Country" :: "Subdivision" :: columns (renamed df)).
  { apply with_headings_inv in E1. destruct E1 as (v & ->). reflexivity. }
  split.
  - rewrite E3, C2. apply single_positions_NoDup. exact U.
  - rewrite E3, C2, C1, K. intros x Hx.
    destruct Hx as [<-|[<-|Hx]]; [now left|now right; left|].
    right; right. unfold renamed. cbv zeta. apply add_expected_columns.
    right. exact Hx.
Qed.

Lemma loop_body_canonical (nc : list string) (frames frames' : list (frame string))
    (tbl : list (node read_html_result) * read_html_result) :
  Forall Spec.canonical frames ->
  loop_body nc frames tbl = Ok frames' -> Forall Spec.canonical frames'.
Proof.
  intros F. unfold loop_body. destruct tbl as [prev r].
  destruct (country_of nc prev) as [country|].
  - destruct r as [df|e].
    + destruct (table_frame country (subdivision_of prev) df) as [d|e] eqn:E;
        unfold bind; [|discriminate].
      intros H. injection H as <-. apply Forall_app. split; [exact F|].
      constructor; [|constructor]. exact (table_frame_canonical _ _ _ _ E).
    + destruct (is_ValueError e); [|discriminate].
      intros H. injection H as <-. exact F.
  - intros H. injection H as <-. exact F.
Qed.

Lemma for_each_invariant {A X} (P : A -> Prop) (body : A -> X -> result A) :
  (forall a x a', P a -> body a x = Ok a' -> P a') ->
  forall xs a a', P a -> for_each body xs a = Ok a' -> P a'.
Proof.
  intros Step. induction xs as [|x xs IH]; intros a a' Pa; cbn [for_each].
  - intros H. injection H as <-. exact Pa.
  - destruct (body a x) as [a1|e] eqn:E; unfold bind; [|discriminate].
    apply IH. exact (Step _ _ _ Pa E).
Qed.

Lemma collect_canonical (nc : list string) (p body : list (node read_html_result))
    (frames : list (frame string)) :
  collect nc p body = Ok frames -> Forall Spec.canonical frames.
Proof.
  unfold collect. apply for_each_invariant with (P := Forall Spec.canonical).
  - intros a x a'. apply loop_body_canonical.
  - constructor.
Qed.

(** ** Concatenation and the order of the columns *)

Lemma first_seen_In (l : list string) (x : string) :
  In x (Spec.first_seen l) <-> In x l.
Proof.
  induction l as [|y l IH]; cbn [Spec.first_seen]; [tauto|].
  cbn [In]. rewrite filter_In, IH.
  destruct (String.eqb_spec x y) as [->|N]; cbn [negb].
  - split; [intros [H|[H _]]; auto|intros _; now left].
  - split; [intros [H|[H _]]; auto|].
    intros [H|H]; [now left|right; auto].
Qed.

Lemma filter_filter {A} (f g : A -> bool) (l : list A) :
  filter f (filter g l) = filter (fun x => g x && f x) l.
Proof.
  induction l as [|x l IH]; [reflexivity|]. cbn [filter].
  destruct (g x); cbn [filter andb]; [destruct (f x)|]; now rewrite IH.
Qed.

Lemma new_labels_first_seen (l seen : list string) :
  new_labels seen l
  = filter (fun x => negb (contains seen x)) (Spec.first_seen l).
Proof.
  revert seen. induction l as [|y l IH]; intros seen; [reflexivity|].
  cbn [new_labels Spec.first_seen filter].
  destruct (contains seen y) eqn:E; cbn [negb].
  - rewrite IH, filter_filter. apply filter_ext_in. intros x _.
    destruct (String.eqb_spec x y) as [->|N]; cbn [negb andb];
      [now rewrite E|reflexivity].
  - f_equal. rewrite IH, filter_filter. apply filter_ext. intros x.
    unfold contains. cbn [existsb].
    destruct (String.eqb x y); cbn [negb andb orb]; reflexivity.
Qed.

Lemma new_labels_ext (l s1 s2 : list string) :
  (forall x, contains s1 x = contains s2 x) -> new_labels s1 l = new_labels s2 l.
Proof.
  intros H. rewrite !new_labels_first_seen. apply filter_ext.
  intros x. now rewrite H.
Qed.

Lemma contains_app (a b : list string) (x : string) :
  contains (a ++ b) x = contains a x || contains b x.
Proof. unfold contains. apply existsb_app. Qed.

Lemma contains_cons (y : string) (l : list string) (x : string) :
  contains (y :: l) x = String.eqb x y || contains l x.
Proof. reflexivity. Qed.

Lemma new_labels_app (a b seen : list string) :
  new_labels seen (a ++ b)
  = new_labels seen a ++ new_labels (seen ++ new_labels seen a) b.
Proof.
  revert seen. induction a as [|y a IH]; intros seen.
  - cbn [new_labels app]. now rewrite app_nil_r.
  - cbn [new_labels app]. destruct (contains seen y) eqn:E.
    + apply IH.
    + cbn [app]. f_equal. rewrite IH. f_equal. apply new_labels_ext.
      intros x. rewrite !contains_app, !contains_cons.
      destruct (String.eqb x y), (contains seen x),
        (contains (new_labels (y :: seen) a) x); reflexivity.
Qed.

Lemma union_columns_flat (frames : list (frame string)) (seen : list string) :
  union_columns seen frames = new_labels seen (flat_map columns frames).
Proof.
  revert seen. induction frames as [|f frames IH]; intros seen; [reflexivity|].
  cbn [union_columns flat_map]. now rewrite new_labels_app, IH.
Qed.

Lemma concat_columns (frames : list (frame string)) :
  columns (concat frames) = Spec.first_seen (flat_map columns frames).
Proof.
  unfold concat, columns at 1. cbn [cols]. rewrite map_map. cbn [fst].
  rewrite map_id, union_columns_flat, new_labels_first_seen.
  apply forallb_filter_id. apply forallb_forall. reflexivity.
Qed.

Lemma index_of_Some (c : string) (l : list string) (j : nat) :
  index_of c l = Some j -> nth_error l j = Some c.
Proof.
  revert j. induction l as [|x l IH]; intros j; cbn [index_of]; [discriminate|].
  destruct (String.eqb_spec x c) as [->|N].
  - intros H. injection H as <-. reflexivity.
  - destruct (index_of c l) as [k|]; [|discriminate].
    intros H. injection H as <-. cbn. now apply IH.
Qed.

Lemma index_of_In (c : string) (l : list string) :
  In c l -> exists j, index_of c l = Some j.
Proof.
  induction l as [|x l IH]; [intros []|]. intros H. cbn [index_of].
  destruct (String.eqb_spec x c) as [->|N]; [now exists 0|].
  destruct H as [H|H]; [contradiction|].
  destruct (IH H) as [j ->]. now exists (S j).
Qed.

Lemma lookup_all_Ok (df : frame string) (labels : list string) :
  incl labels (columns df) ->
  exists js, lookup_all df labels = Ok js
             /\ Forall2 (fun l j => index_of l (columns df) = Some j) labels js.
Proof.
  induction labels as [|l labels IH]; intros H.
  - exists []. split; [reflexivity|constructor].
  - destruct (index_of_In l (columns df)) as [j Hj]; [apply H; now left|].
    destruct IH as (js & E & F); [intros x Hx; apply H; now right|].
    exists (j :: js). cbn [lookup_all]. rewrite Hj, E.
    split; [reflexivity|now constructor].
Qed.

Lemma map_nth_label {A} (g : string -> A) (labels : list string) (j : nat)
    (l : string) (d : A) :
  nth_error labels j = Some l -> nth j (map g labels) d = g l.
Proof.
  revert j. induction labels as [|x labels IH]; intros [|j]; cbn [nth_error map nth];
    try discriminate.
  - intros H. now injection H as ->.
  - apply IH.
Qed.

Lemma concat_rows (frames : list (frame string)) :
  rows (concat frames)
  = flat_map (fun f => map (fun r => map (concat_cell frames f r)
                                         (columns (concat frames)))
                           (rows f))
             frames.
Proof.
  unfold concat, columns. cbn [cols rows].
  rewrite map_map. cbn [fst]. now rewrite map_id.
Qed.

Lemma map_flat_map {A B C} (g : B -> C) (h : A -> list B) (l : list A) :
  map g (flat_map h l) = flat_map (fun x => map g (h x)) l.
Proof.
  induction l as [|x l IH]; [reflexivity|]. cbn [flat_map].
  now rewrite map_app, IH.
Qed.

Lemma selected_labels (df : frame string) (labels : list string) (js : list nat) :
  Forall2 (fun l j => index_of l (columns df) = Some j) labels js ->
  map fst (map (fun j => nth j (cols df) ("", object)) js) = labels.
Proof.
  induction 1 as [|l j labels js H _ IH]; [reflexivity|].
  cbn [map]. rewrite IH. f_equal.
  apply index_of_Some in H. unfold columns in H.
  rewrite <- (map_nth fst). cbn [fst].
  now apply nth_error_nth.
Qed.

Lemma missing_cell_written (d : dtype) (c : cell) :
  isna c = true -> csv_field (astype_cell d c) = "".
Proof. destruct c; try discriminate; destruct d; reflexivity. Qed.

(** A cell that pandas re-creates is written as the empty field, which
    is how it was written before. *)
Lemma concat_cell_written (frames : list (frame string)) (f : frame string)
    (r : list cell) (l : string) :
  In r (rows f) ->
  csv_field (concat_cell frames f r l)
  = csv_field (Spec.written frames l (Spec.cell_under f r l)).
Proof.
  intros Hr. unfold concat_cell, Spec.written, Spec.cell_under, concat_dtype.
  cbv zeta.
  destruct (recreated (map (fun f0 => piece_of f0 l) frames) (piece_of f l))
    eqn:E; [|reflexivity].
  symmetry. apply missing_cell_written.
  unfold recreated in E. apply andb_prop in E. destruct E as [E _].
  unfold piece_of in E.
  destruct (index_of l (columns f)) as [j|]; [|reflexivity].
  cbn [option_map is_na] in E.
  destruct (nth j (map snd (cols f)) object); try discriminate;
    rewrite forallb_forall in E; apply E; apply in_map_iff; now exists r.
Qed.

Lemma selected_cells (frames : list (frame string)) (f : frame string)
    (all : list string) (r : list cell) (labels : list string) (js : list nat) :
  In r (rows f) ->
  Forall2 (fun l j => index_of l all = Some j) labels js ->
  map csv_field (map (fun j => nth j (map (concat_cell frames f r) all) NaN) js)
  = map (fun l => csv_field (Spec.written frames l (Spec.cell_under f r l)))
        labels.
Proof.
  intros Hr. induction 1 as [|l j labels js H _ IH]; [reflexivity|].
  cbn [map]. rewrite IH. f_equal.
  rewrite (map_nth_label _ _ _ l NaN (index_of_Some _ _ _ H)).
  now apply concat_cell_written.
Qed.

Lemma header_in_concat (frames : list (frame string)) :
  frames <> [] -> Forall Spec.canonical frames ->
  incl (Spec.header frames) (columns (concat frames)).
Proof.
  intros N F x Hx. rewrite concat_columns. unfold Spec.header in Hx.
  apply in_app_or in Hx. destruct Hx as [Hx|Hx].
  - apply first_seen_In. destruct frames as [|f frames]; [contradiction|].
    inversion F as [|? ? [_ I] _]; subst. cbn [flat_map].
    apply in_or_app. left. apply I, Hx.
  - apply filter_In in Hx. tauto.
Qed.

Lemma assemble_csv (frames : list (frame string)) :
  frames <> [] -> Forall Spec.canonical frames ->
  exists out, assemble frames = Ok out
              /\ to_csv out = Spec.header frames :: Spec.records frames.
Proof.
  intros N F. unfold assemble. cbv zeta.
  assert (H : first ++ filter (fun c => negb (contains first c))
                         (columns (concat frames)) = Spec.header frames).
  { unfold Spec.header. now rewrite concat_columns. }
  rewrite H. unfold getitem_list.
  destruct (lookup_all_Ok (concat frames) (Spec.header frames)) as (js & E & K);
    [now apply header_in_concat|].
  rewrite E. eexists. split; [reflexivity|].
  unfold to_csv, columns at 1. cbn [cols rows]. f_equal.
  - exact (selected_labels _ _ _ K).
  - rewrite map_map, concat_rows, map_flat_map. unfold Spec.records.
    apply flat_map_ext. intros f. rewrite map_map. apply map_ext_in.
    intros r Hr. exact (selected_cells frames f _ r _ _ Hr K).
Qed.

Lemma main_writes (nc : list string) (p : page) (w : world)
    (body : list (node read_html_result)) (frames : list (frame string)) :
  content p = Some body -> collect nc (preamble p) body = Ok frames ->
  frames <> [] ->
  main nc p w
  = (print (Spec.report frames)
       (write_file csv_path (Spec.header frames :: Spec.records frames) w), None).
Proof.
  intros C E N. unfold main. rewrite C, E.
  destruct (assemble_csv frames N (collect_canonical _ _ _ _ E)) as (out & A & T).
  destruct frames as [|f frames]; [contradiction|].
  rewrite A, T. unfold Spec.report. do 4 f_equal.
  unfold len. unfold to_csv in T. injection T as _ T.
  now rewrite <- T, length_map.
Qed.

Lemma main_no_tables (nc : list string) (p : page) (w : world)
    (body : list (node read_html_result)) :
  content p = Some body -> collect nc (preamble p) body = Ok [] ->
  main nc p w = (w, Some (RuntimeError Spec.no_tables_message)).
Proof. intros C E. unfold main. now rewrite C, E. Qed.

Lemma main_no_body (nc : list string) (p : page) (w : world) :
  content p = None ->
  main nc p w = (w, Some (RuntimeError "Could not locate page body.")).
Proof. intros C. unfold main. now rewrite C. Qed.

Lemma loop_body_appends (nc : list string) (frames frames' : list (frame string))
    (tbl : list (node read_html_result) * read_html_result) :
  loop_body nc frames tbl = Ok frames' ->
  frames' = frames ++ Spec.contribution nc tbl.
Proof.
  unfold Spec.contribution, loop_body. destruct tbl as [prev r].
  destruct (country_of nc prev) as [country|].
  - destruct r as [df|e].
    + destruct (table_frame country (subdivision_of prev) df) as [d|e];
        unfold bind; [|discriminate].
      intros H. now injection H as <-.
    + destruct (is_ValueError e); [|discriminate].
      intros H. injection H as <-. now rewrite app_nil_r.
  - intros H. injection H as <-. now rewrite app_nil_r.
Qed.

Lemma for_each_appends (nc : list string)
    (ts : list (list (node read_html_result) * read_html_result))
    (frames frames' : list (frame string)) :
  for_each (loop_body nc) ts frames = Ok frames' ->
  frames' = frames ++ flat_map (Spec.contribution nc) ts.
Proof.
  revert frames. induction ts as [|t ts IH]; intros frames; cbn [for_each flat_map].
  - intros H. injection H as <-. now rewrite app_nil_r.
  - destruct (loop_body nc frames t) as [f1|e] eqn:E; unfold bind; [|discriminate].
    intros H. apply IH in H. apply loop_body_appends in E. subst.
    now rewrite <- app_assoc.
Qed.

(** ** The run *)

(** C4. When no table survives the loop — in particular when the body
    holds no wikitable — the run ends with the RuntimeError "No tables
    found under country sections...", the exit status is 1 and the
    world is as before, so no file is written; when a table survives,
    the file is written whole, header and records, and the run ends
    normally. *)
Theorem no_survivor_is_fatal (p : page) (w : world)
    (body : list (node read_html_result)) (frames : list (frame string)) :
  content p = Some body ->
  collect NON_COUNTRY_H2 (preamble p) body = Ok frames ->
  (select_tables "wikitable" (rev (preamble p)) body = [] -> frames = [])
  /\ match frames with
     | [] =>
         main NON_COUNTRY_H2 p w = (w, Some (RuntimeError Spec.no_tables_message))
         /\ exit_status (snd (main NON_COUNTRY_H2 p w)) = 1%Z
     | _ :: _ =>
         main NON_COUNTRY_H2 p w
         = (print (Spec.report frames)
              (write_file csv_path (Spec.header frames :: Spec.records frames) w),
            None)
         /\ read_file csv_path (fst (main NON_COUNTRY_H2 p w))
            = Some (Spec.header frames :: Spec.records frames)
         /\ exit_status (snd (main NON_COUNTRY_H2 p w)) = 0%Z
     end.
Proof.
  intros C E. split.
  - intros S. unfold collect in E. rewrite S in E. cbn in E. congruence.
  - destruct frames as [|f frames].
    + rewrite (main_no_tables _ _ w _ C E). split; reflexivity.
    + rewrite (main_writes _ _ w _ _ C E) by discriminate.
      split; [reflexivity|]. split; [|reflexivity].
      unfold read_file, write_file, print. cbn [fst files List.find].
      unfold csv_path. rewrite String.eqb_refl. reflexivity.
Qed.

Lemma no_survivor_is_fatal_witness :
  main NON_COUNTRY_H2 Samples.no_tables_page Samples.nothing
  = (Samples.nothing, Some (RuntimeError Spec.no_tables_message))
  /\ exit_status (snd (main NON_COUNTRY_H2 Samples.no_tables_page Samples.nothing))
     = 1%Z.
Proof.
  exact (proj2 (no_survivor_is_fatal Samples.no_tables_page Samples.nothing
                  [Samples.heading "h2" "Canada"] [] eq_refl eq_refl)).
Defined.

(** C7. The frames are collected in the order of their tables in the
    document, and the file holds a header record, the nine canonical
    columns in their fixed order followed by every other column where it
    is first seen, and then the rows of the frames, frame after frame,
    each in its own order and laid out under the header; a record has no
    field besides those of the header. A field is the text of its cell
    as its column is typed once the frames are together: a text is
    written as it is, and an integer as a float where its column has
    become one of floats. *)
Theorem rows_and_columns_in_order (p : page) (w : world)
    (body : list (node read_html_result)) (frames : list (frame string)) :
  content p = Some body ->
  collect NON_COUNTRY_H2 (preamble p) body = Ok frames ->
  frames <> [] ->
  frames = flat_map (Spec.contribution NON_COUNTRY_H2)
                    (select_tables "wikitable" (rev (preamble p)) body)
  /\ read_file csv_path (fst (main NON_COUNTRY_H2 p w))
     = Some (Spec.header frames :: Spec.records frames)
  /\ Forall (fun r => length r = length (Spec.header frames)) (Spec.records frames)
  /\ (forall l s, Spec.written frames l (Str s) = Str s).
Proof.
  intros C E N. split; [|split; [|split]].
  - unfold collect in E. apply for_each_appends in E. exact E.
  - rewrite (main_writes _ _ w _ _ C E N).
    unfold read_file, write_file, print. cbn [fst files List.find].
    unfold csv_path. rewrite String.eqb_refl. reflexivity.
  - unfold Spec.records. apply Forall_forall. intros r Hr.
    apply in_flat_map in Hr. destruct Hr as (f & _ & Hr).
    apply in_map_iff in Hr. destruct Hr as (r0 & <- & _).
    apply length_map.
  - intros l s. unfold Spec.written. now destruct (concat_dtype frames l).
Qed.

Lemma rows_and_columns_in_order_witness :
  read_file csv_path
    (fst (main NON_COUNTRY_H2 Samples.pages_then_none Samples.nothing))
  = Some (Spec.header Samples.pages_frames :: Spec.records Samples.pages_frames).
Proof.
  refine (proj1 (proj2 (rows_and_columns_in_order Samples.pages_then_none
                          Samples.nothing _ Samples.pages_frames
                          eq_refl _ _))).
  - vm_compute. reflexivity.
  - discriminate.
Defined.

(** A column of integers that a later table lacks is a column of floats
    in the file: 730 is written 730.0, and the field of the table
    without the column is empty. *)
Example integer_column_becomes_float :
  read_file csv_path
    (fst (main NON_COUNTRY_H2 Samples.pages_then_none Samples.nothing))
  = Some [first ++ ["Pages"];
          ["Canada"; "<NA>"; "Ulysses"; "<NA>"; "<NA>"; "<NA>"; "<NA>";
           "<NA>"; "<NA>"; "730.0"];
          ["France"; "<NA>"; "Ulysses"; "James Joyce"; "<NA>"; "<NA>";
           "<NA>"; "<NA>"; "<NA>"; ""]].
Proof. vm_compute. reflexivity. Qed.

(** Beside a column of texts the integers stay integers. *)
Example integer_column_beside_text :
  read_file csv_path
    (fst (main NON_COUNTRY_H2 Samples.pages_then_words Samples.nothing))
  = Some [first ++ ["Pages"];
          ["Canada"; "<NA>"; "Ulysses"; "<NA>"; "<NA>"; "<NA>"; "<NA>";
           "<NA>"; "<NA>"; "730"];
          ["France"; "<NA>"; "Candide"; "<NA>"; "<NA>"; "<NA>"; "<NA>";
           "<NA>"; "<NA>"; "about 130"]].
Proof. vm_compute. reflexivity. Qed.

(** ** Tables that cannot be read *)

(** C5, as stated, fails: a table that [read_html] cannot read with an
    exception other than ValueError ends the run. *)
Lemma index_error_is_not_skipped : ~ Spec.skips_any_failure.
Proof.
  intros H.
  specialize (H [] [Samples.heading "h2" "Canada"] "Canada"
                (IndexError "list index out of range") eq_refl).
  discriminate H.
Qed.

(** C5, amended. An accepted table whose reading raises ValueError is
    skipped: the frames stay as they are, nothing is raised, and the
    loop goes on with the next table. *)
Theorem value_error_is_skipped (frames : list (frame string))
    (prev : list (node read_html_result)) (country msg : string)
    (rest : list (list (node read_html_result) * read_html_result)) :
  country_of NON_COUNTRY_H2 prev = Some country ->
  loop_body NON_COUNTRY_H2 frames (prev, Raise (ValueError msg)) = Ok frames
  /\ for_each (loop_body NON_COUNTRY_H2)
       ((prev, Raise (ValueError msg)) :: rest) frames
     = for_each (loop_body NON_COUNTRY_H2) rest frames.
Proof.
  intros C.
  assert (L : loop_body NON_COUNTRY_H2 frames (prev, Raise (ValueError msg))
              = Ok frames).
  { unfold loop_body. rewrite C. reflexivity. }
  split; [exact L|]. cbn [for_each]. rewrite L. reflexivity.
Qed.

Lemma value_error_is_skipped_witness :
  country_of NON_COUNTRY_H2 [Samples.heading "h2" "Canada"] = Some "Canada"
  /\ for_each (loop_body NON_COUNTRY_H2)
       [([Samples.heading "h2" "Canada"], Raise (ValueError "No tables found"));
        ([Samples.wikitable (Raise (ValueError "No tables found"));
          Samples.heading "h2" "Canada"], Ok Samples.two_columns)] []
     = for_each (loop_body NON_COUNTRY_H2)
         [([Samples.wikitable (Raise (ValueError "No tables found"));
            Samples.heading "h2" "Canada"], Ok Samples.two_columns)] [].
Proof.
  split; [reflexivity|].
  exact (proj2 (value_error_is_skipped [] [Samples.heading "h2" "Canada"]
                  "Canada" "No tables found" _ eq_refl)).
Defined.

(** ** Two runs on the same page *)

Lemma contains_Permutation (l1 l2 : list string) (x : string) :
  Permutation l1 l2 -> contains l1 x = contains l2 x.
Proof.
  intros P. destruct (contains l1 x) eqn:E1, (contains l2 x) eqn:E2;
    try reflexivity.
  - apply contains_In in E1. apply contains_not_In in E2.
    exfalso. apply E2. exact (Permutation_in _ P E1).
  - apply contains_In in E2. apply contains_not_In in E1.
    exfalso. apply E1. exact (Permutation_in _ (Permutation_sym P) E2).
Qed.

Lemma for_each_ext {A X} (f g : A -> X -> result A) :
  (forall a x, f a x = g a x) ->
  forall xs a, for_each f xs a = for_each g xs a.
Proof.
  intros H. induction xs as [|x xs IH]; intros a; [reflexivity|].
  cbn [for_each]. rewrite H. destruct (g a x); unfold bind; [apply IH|reflexivity].
Qed.

Lemma main_Permutation (o1 o2 : list string) (p : page) (w : world) :
  Permutation o1 o2 -> main o1 p w = main o2 p w.
Proof.
  intros P.
  assert (C : forall prev, country_of o1 prev = country_of o2 prev).
  { intros prev. unfold country_of.
    destruct (get_headline_text (find_previous "h2" prev)) as [c|]; [|reflexivity].
    now rewrite (contains_Permutation o1 o2 c P). }
  assert (L : forall frames tbl, loop_body o1 frames tbl = loop_body o2 frames tbl).
  { intros frames [prev r]. unfold loop_body. now rewrite C. }
  unfold main, collect. destruct (content p) as [body|]; [|reflexivity].
  now rewrite (for_each_ext _ _ L).
Qed.

Lemma main_cases (o : list string) (p : page) :
  (exists e, forall w, main o p w = (w, Some e))
  \/ (exists data line,
        forall w, main o p w = (print line (write_file csv_path data w), None)).
Proof.
  unfold main. destruct (content p) as [body|]; [|left; eexists; reflexivity].
  destruct (collect o (preamble p) body) as [[|f frames]|e];
    try (left; eexists; reflexivity).
  destruct (assemble (f :: frames)) as [out|e];
    [right; do 2 eexists; reflexivity|left; eexists; reflexivity].
Qed.

(** C8. Two runs on the same page end the same way, whatever order the
    interpreter holds the set [NON_COUNTRY_H2] in on each run and
    whatever files there were before: either both raise the same
    exception and leave the files alone, or both write the same file. *)
Theorem same_page_same_file (order1 order2 : list string) (p : page)
    (w1 w2 : world) :
  Permutation NON_COUNTRY_H2 order1 ->
  Permutation NON_COUNTRY_H2 order2 ->
  snd (main order1 p w1) = snd (main order2 p w2)
  /\ match snd (main order1 p w1) with
     | None => read_file csv_path (fst (main order1 p w1))
               = read_file csv_path (fst (main order2 p w2))
     | Some _ => fst (main order1 p w1) = w1 /\ fst (main order2 p w2) = w2
     end.
Proof.
  intros P1 P2.
  assert (E : forall w, main order2 p w = main order1 p w).
  { intros w. apply main_Permutation.
    exact (Permutation_trans (Permutation_sym P2) P1). }
  rewrite E.
  destruct (main_cases order1 p) as [(e & H)|(data & line & H)]; rewrite !H;
    cbn [fst snd].
  - auto.
  - split; [reflexivity|].
    unfold read_file, write_file, print. cbn [files List.find fst].
    unfold csv_path. rewrite String.eqb_refl. reflexivity.
Qed.

Lemma same_page_same_file_witness :
  snd (main NON_COUNTRY_H2 Samples.two_tables_page Samples.nothing)
  = snd (main (rev NON_COUNTRY_H2) Samples.two_tables_page Samples.earlier).
Proof.
  pose proof (same_page_same_file NON_COUNTRY_H2 (rev NON_COUNTRY_H2)
                Samples.two_tables_page Samples.nothing Samples.earlier) as H.
  specialize (H (Permutation_refl _)).
  specialize (H (Permutation_rev _)).
  destruct H as [H _]. exact H.
Defined.

(** ** Headings *)

(** A table under a housekeeping heading, or with no level-1 heading
    before it, adds nothing to the frames, whatever its rows. *)
Lemma housekeeping_table_is_left_out (frames : list (frame string))
    (prev : list (node read_html_result)) (r : read_html_result) :
  match get_headline_text (find_previous "h2" prev) with
  | Some text => contains NON_COUNTRY_H2 text = true \/ text = ""
  | None => True
  end ->
  loop_body NON_COUNTRY_H2 frames (prev, r) = Ok frames.
Proof.
  intros H. unfold loop_body, country_of.
  destruct (get_headline_text (find_previous "h2" prev)) as [text|];
    [|reflexivity].
  destruct H as [-> | ->]; [|reflexivity].
  now rewrite orb_true_r.
Qed.

(** [find_previous] gives the nearest node of that name: none of the
    nodes it steps over has the name. *)
Lemma find_previous_nearest {T} (name : string) (prev : list (node T)) (t : tag T) :
  find_previous name prev = Some t ->
  exists skipped n,
    prev = skipped ++ n :: before t
    /\ named name n = Some (markup t)
    /\ Forall (fun m => named name m = None) skipped.
Proof.
  induction prev as [|n prev IH]; cbn [find_previous]; [discriminate|].
  destruct (named name n) as [e|] eqn:E.
  - intros H. injection H as <-. exists [], n. cbn. auto.
  - intros H. destruct (IH H) as (skipped & m & -> & N & F).
    exists (n :: skipped), m. cbn. auto.
Qed.

(** The country of an accepted table is the trimmed headline text of
    the nearest level-1 heading before it, and that text is neither
    empty nor a housekeeping label. *)
Lemma country_of_inv (prev : list (node read_html_result)) (country : string) :
  country_of NON_COUNTRY_H2 prev = Some country ->
  exists h2, find_previous "h2" prev = Some h2
             /\ get_headline_text (Some h2) = Some country
             /\ country <> "" /\ ~ In country NON_COUNTRY_H2.
Proof.
  unfold country_of.
  destruct (find_previous "h2" prev) as [h2|]; [|discriminate].
  destruct (get_headline_text (Some h2)) as [c|] eqn:G; [|discriminate].
  destruct (truthy c) eqn:Tc; cbn [negb orb]; [|discriminate].
  destruct (contains NON_COUNTRY_H2 c) eqn:Nc; [discriminate|].
  intros H. injection H as <-. exists h2. repeat split; try assumption.
  - intros ->. discriminate Tc.
  - now apply contains_not_In.
Qed.

(** Where two different level-1 headings never have the same markup,
    [==] tells them apart as identity does, and the subdivision is the
    one found by identity. *)
Lemma subdivision_by_identity_when_distinct (prev : list (node read_html_result)) :
  (forall h3 x y,
      find_previous "h3" prev = Some h3 ->
      find_previous "h2" (before h3) = Some x ->
      find_previous "h2" prev = Some y ->
      position x <> position y -> tag_eq (markup x) (markup y) = false) ->
  subdivision_of prev = Spec.subdivision_by_identity prev.
Proof.
  intros D. unfold subdivision_of, Spec.subdivision_by_identity.
  destruct (find_previous "h3" prev) as [h3|] eqn:E3; [|reflexivity].
  destruct (find_previous "h2" (before h3)) as [x|] eqn:Ex;
    destruct (find_previous "h2" prev) as [y|] eqn:Ey; try reflexivity.
  unfold eq_op, same_node.
  destruct (Nat.eqb_spec (position x) (position y)) as [P|P]; [reflexivity|].
  cbn [orb]. now rewrite (D h3 x y eq_refl Ex eq_refl P).
Qed.

Example quebec_under_canada :
  map (fun t => (country_of NON_COUNTRY_H2 (fst t), subdivision_of (fst t)))
      (select_tables "wikitable" [] Samples.canada_quebec)
  = [(Some "Canada", Some "Quebec")].
Proof. reflexivity. Qed.

Example quebec_not_under_france :
  map (fun t => (country_of NON_COUNTRY_H2 (fst t), subdivision_of (fst t)))
      (select_tables "wikitable" [] Samples.canada_then_france)
  = [(Some "France", None)].
Proof. reflexivity. Qed.

(** C2. On [<h2>Canada</h2> <h3>Quebec</h3> <h2>Canada</h2> <table>]
    the level-1 heading before "Quebec" is the first "Canada" and the
    country heading of the table is the second, two nodes; compared by
    identity the table has no subdivision, but [h3s_h2 == h2] compares
    the markup of the two tags, finds it equal, and the table gets
    "Quebec". *)
Theorem repeated_heading_inherits_subdivision :
  map (fun t => (country_of NON_COUNTRY_H2 (fst t),
                 subdivision_of (fst t),
                 Spec.subdivision_by_identity (fst t)))
      (select_tables "wikitable" [] Samples.canada_twice)
  = [(Some "Canada", Some "Quebec", None)].
Proof. reflexivity. Qed.

(** ** Missing values in the file *)

Lemma mask_rows_filter (f : list cell -> bool) (rs : list (list cell)) :
  mask_rows rs (map f rs) = filter f rs.
Proof.
  induction rs as [|r rs IH]; [reflexivity|]. cbn [map mask_rows filter].
  rewrite IH. now destruct (f r).
Qed.

(** What line 103 keeps: the rows whose Title prints as a text that is
    not empty. A cell that is missing prints as "nan" or "<NA>" and is
    kept, though its field in the file is empty. *)
Lemma drop_untitled_filter (df : frame string) (j : nat) :
  positions df "Title" = [j] ->
  drop_untitled df
  = Ok (mkFrame (cols df)
          (filter (fun r => (0 <? String.length (str_of_cell (nth j r NaN)))%nat)
                  (rows df))).
Proof.
  intros P. unfold drop_untitled. rewrite P. unfold getitem_mask. do 2 f_equal.
  unfold str_len_gt0, astype_str, column_at. cbn [values].
  rewrite !map_map. apply mask_rows_filter.
Qed.

(** C1. A Title column of numbers and blanks is not of dtype object:
    its NaN is not trimmed to the empty text, [astype(str)] prints it as
    "nan", of length 3, and the row stays, with an empty Title in the
    file. And a section whose heading reads "nan" is accepted, after
    which [replace({"nan": ""})] empties its Country. *)
Theorem untitled_row_is_written :
  (read_file csv_path
     (fst (main NON_COUNTRY_H2 Samples.blank_title_page Samples.nothing))
   = Some [first;
           ["Canada"; "<NA>"; "1984.0"; "George Orwell";
            "<NA>"; "<NA>"; "<NA>"; "<NA>"; "<NA>"];
           ["Canada"; "<NA>"; ""; "Anonymous";
            "<NA>"; "<NA>"; "<NA>"; "<NA>"; "<NA>"]]
   /\ ~ Spec.titled_and_located
          [first;
           ["Canada"; "<NA>"; "1984.0"; "George Orwell";
            "<NA>"; "<NA>"; "<NA>"; "<NA>"; "<NA>"];
           ["Canada"; "<NA>"; ""; "Anonymous";
            "<NA>"; "<NA>"; "<NA>"; "<NA>"; "<NA>"]])
  /\ (read_file csv_path
        (fst (main NON_COUNTRY_H2 Samples.nan_page Samples.nothing))
      = Some [first;
              [""; "<NA>"; "Ulysses"; "James Joyce";
               "<NA>"; "<NA>"; "<NA>"; "<NA>"; "<NA>"]]
      /\ ~ Spec.titled_and_located
             [first;
              [""; "<NA>"; "Ulysses"; "James Joyce";
               "<NA>"; "<NA>"; "<NA>"; "<NA>"; "<NA>"]]).
Proof.
  split; (split; [vm_compute; reflexivity|]).
  - intros H. cbn [Spec.titled_and_located] in H.
    inversion H as [|? ? _ T]; subst. inversion T as [|? ? [K _] _]; subst.
    apply K. reflexivity.
  - intros H. cbn [Spec.titled_and_located] in H.
    inversion H as [|? ? [_ K] _]; subst. apply K. reflexivity.
Qed.

(** C3. A table without a Notes column gets one in the file, but its
    fields are not empty: the column is filled with [pd.NA], which
    [astype(str)] prints as "<NA>", and only "nan" is replaced by the
    empty text. *)
Theorem missing_column_reads_NA :
  read_file csv_path
    (fst (main NON_COUNTRY_H2 Samples.no_notes_page Samples.nothing))
  = Some [first;
          ["Canada"; "<NA>"; "Ulysses"; "James Joyce";
           "<NA>"; "<NA>"; "<NA>"; "<NA>"; "<NA>"]]
  /\ ~ Spec.empty_under "Notes"
         [first;
          ["Canada"; "<NA>"; "Ulysses"; "James Joyce";
           "<NA>"; "<NA>"; "<NA>"; "<NA>"; "<NA>"]].
Proof.
  split; [vm_compute; reflexivity|].
  intros H. cbn [Spec.empty_under] in H.
  inversion H as [|? ? K _]; subst. discriminate K.
Qed.

(** The run on a page with a table that raises IndexError ends with
    that exception, and writes nothing. *)
Example index_error_ends_the_run :
  main NON_COUNTRY_H2 Samples.caption_only_page Samples.nothing
  = (Samples.nothing, Some (IndexError "list index out of range")).
Proof. reflexivity. Qed.

Example value_error_run :
  read_file csv_path
    (fst (main NON_COUNTRY_H2 Samples.unreadable_page Samples.nothing))
  = Some [first;
          ["Canada"; "<NA>"; "Ulysses"; "James Joyce";
           "<NA>"; "<NA>"; "<NA>"; "<NA>"; "<NA>"]].
Proof. vm_compute. reflexivity. Qed.

(** ** Trimming *)

Lemma lstrip_idem (s : string) : lstrip (lstrip s) = lstrip s.
Proof.
  induction s as [|c s IH]; [reflexivity|]. cbn [lstrip].
  destruct (isspace c) eqn:E; [exact IH|]. cbn [lstrip]. now rewrite E.
Qed.

Lemma rstrip_cons (c : ascii) (s : string) :
  rstrip (String c s)
  = match rstrip s with
    | EmptyString => if isspace c then EmptyString else String c EmptyString
    | String b t => String c (String b t)
    end.
Proof. reflexivity. Qed.

Lemma rstrip_idem (s : string) : rstrip (rstrip s) = rstrip s.
Proof.
  induction s as [|c s IH]; [reflexivity|]. rewrite rstrip_cons.
  destruct (rstrip s) as [|b t] eqn:E.
  - destruct (isspace c) eqn:Ec; [reflexivity|]. cbn [rstrip]. now rewrite Ec.
  - rewrite rstrip_cons, IH. reflexivity.
Qed.

Lemma rstrip_lstrip (s : string) : rstrip (lstrip s) = lstrip (rstrip s).
Proof.
  induction s as [|c s IH]; [reflexivity|]. rewrite rstrip_cons. cbn [lstrip].
  destruct (isspace c) eqn:E.
  - rewrite IH. destruct (rstrip s) as [|b t]; [reflexivity|].
    cbn [lstrip]. now rewrite E.
  - rewrite rstrip_cons. destruct (rstrip s) as [|b t]; cbn [lstrip]; now rewrite E.
Qed.

Lemma strip_idem (s : string) : strip (strip s) = strip s.
Proof.
  unfold strip. now rewrite rstrip_lstrip, rstrip_idem, lstrip_idem.
Qed.


Lemma ren_get_fixed (s : string) :
  strip s = s ->
  strip (dict_get ren s s) = dict_get ren s s
  /\ dict_get ren (dict_get ren s s) (dict_get ren s s) = dict_get ren s s.
Proof.
  intros T.
  assert (K : forall k v, In (k, v) ren -> strip v = v /\ dict_get ren v v = v).
  { intros k v H. unfold ren in H. cbn [In] in H.
    repeat (destruct H as [H|H];
            [injection H as <- <-; split; vm_compute; reflexivity|]).
    destruct H. }
  assert (E : dict_get ren s s
              = match List.find (fun kv => String.eqb (fst kv) s) ren with
                | Some kv => snd kv
                | None => s
                end) by reflexivity.
  destruct (List.find (fun kv => String.eqb (fst kv) s) ren) as [[k v]|] eqn:F;
    rewrite E; cbn [snd].
  - apply find_some in F. destruct F as [F _]. exact (K k v F).
  - split; [exact T|]. exact E.
Qed.

Lemma normalize_colname_fixed (c : label) :
  strip (normalize_colname c) = normalize_colname c
  /\ normalize_colname (LStr (normalize_colname c)) = normalize_colname c.
Proof.
  destruct (ren_get_fixed (strip (match c with
                                  | LTuple part parts => first_part part parts
                                  | LStr s => s
                                  | LInt z => str_of_int z
                                  end)) (strip_idem _)) as [A B].
  change (strip (normalize_colname c) = normalize_colname c) in A.
  change (dict_get ren (normalize_colname c) (normalize_colname c)
          = normalize_colname c) in B.
  split; [exact A|].
  unfold normalize_colname at 1. cbv zeta. rewrite A. exact B.
Qed.

(** X2. The canonical names are stable: every name that
    [normalize_colnames] gives is trimmed, and renaming the names again
    gives the same names. *)
Theorem normalize_colnames_idempotent (cols : list label) :
  Forall (fun name => strip name = name) (normalize_colnames cols)
  /\ normalize_colnames (map LStr (normalize_colnames cols))
     = normalize_colnames cols.
Proof.
  unfold normalize_colnames. split.
  - apply Forall_forall. intros name H. apply in_map_iff in H.
    destruct H as (c & <- & _). apply normalize_colname_fixed.
  - rewrite !map_map. apply map_ext. intros c. apply normalize_colname_fixed.
Qed.

Lemma country_trimmed (prev : list (node read_html_result)) (country : string) :
  country_of NON_COUNTRY_H2 prev = Some country ->
  strip country = country /\ country <> "".
Proof.
  intros H. apply country_of_inv in H.
  destruct H as (h2 & _ & G & N & _). split; [|exact N].
  unfold get_headline_text in G. injection G as <-. apply strip_idem.
Qed.

(** X1. The country of an accepted table is a text without white space
    at either end and not empty, so the trimming of line 100 leaves it
    as it is; the replacement of "nan" empties it when it reads
    "nan". *)
Theorem country_survives_cleanup (prev : list (node read_html_result))
    (country : string) :
  country_of NON_COUNTRY_H2 prev = Some country ->
  strip country = country /\ country <> ""
  /\ Cleanup.clean_text (Str country)
     = Str (if String.eqb country "nan" then "" else country).
Proof.
  intros H. destruct (country_trimmed _ _ H) as [T N].
  split; [exact T|]. split; [exact N|].
  unfold Cleanup.clean_text. cbn [str_of_cell]. now rewrite T.
Qed.

Lemma country_survives_cleanup_witness :
  Cleanup.clean_text (Str "Canada") = Str "Canada".
Proof.
  exact (proj2 (proj2 (country_survives_cleanup
                         [Samples.heading "h2" "  Canada "] "Canada" eq_refl))).
Defined.

(** ** Where the subdivision comes from *)

Lemma find_previous_skip {T} (name : string) (skipped rest : list (node T)) :
  Forall (fun n => named name n = None) skipped ->
  find_previous name (skipped ++ rest) = find_previous name rest.
Proof.
  induction 1 as [|n skipped H _ IH]; [reflexivity|].
  cbn [app find_previous]. now rewrite H.
Qed.

Lemma find_previous_here {T} (name : string) (n : node T) (e : elem)
    (rest : list (node T)) :
  named name n = Some e -> find_previous name (n :: rest) = Some (mkTag rest e).
Proof. intros H. cbn [find_previous]. now rewrite H. Qed.

Lemma named_name {T} (name : string) (n : node T) (e : elem) :
  named name n = Some e ->
  exists cs d k, n = Elem (Tag name cs d k) /\ e = Tag name cs d k.
Proof.
  destruct n as [[s|s|m cs d k]|cs t]; cbn [named]; try discriminate.
  destruct (String.eqb_spec m name) as [->|]; [|discriminate].
  intros H. injection H as <-. now exists cs, d, k.
Qed.

Lemma h3_is_not_h2 {T} (n : node T) (e : elem) :
  named "h3" n = Some e -> named "h2" n = None.
Proof.
  intros H. apply named_name in H. destruct H as (cs & d & k & -> & _).
  reflexivity.
Qed.

Lemma h2_is_not_h3 {T} (n : node T) (e : elem) :
  named "h2" n = Some e -> named "h3" n = None.
Proof.
  intros H. apply named_name in H. destruct H as (cs & d & k & -> & _).
  reflexivity.
Qed.

(** X3. A level-2 heading that stands between the country heading and
    the table is the subdivision of the table: whatever the markup of
    the headings, [subdivision_of] gives its headline text, as the
    comparison by identity does. *)
Theorem heading_between_is_subdivision
    (near mid rest : list (node read_html_result))
    (h3n h2n : node read_html_result) (h3e h2e : elem) :
  Forall (fun n => named "h2" n = None /\ named "h3" n = None) near ->
  named "h3" h3n = Some h3e ->
  Forall (fun n => named "h2" n = None) mid ->
  named "h2" h2n = Some h2e ->
  subdivision_of (near ++ h3n :: mid ++ h2n :: rest)
  = get_headline_text (Some (mkTag (mid ++ h2n :: rest) h3e))
  /\ Spec.subdivision_by_identity (near ++ h3n :: mid ++ h2n :: rest)
     = subdivision_of (near ++ h3n :: mid ++ h2n :: rest).
Proof.
  intros Near H3 Mid H2.
  assert (N2 : Forall (fun n => named "h2" n = None) near)
    by (eapply Forall_impl; [|exact Near]; cbn; tauto).
  assert (N3 : Forall (fun n => named "h3" n = None) near)
    by (eapply Forall_impl; [|exact Near]; cbn; tauto).
  assert (F3 : find_previous "h3" (near ++ h3n :: mid ++ h2n :: rest)
               = Some (mkTag (mid ++ h2n :: rest) h3e)).
  { rewrite (find_previous_skip _ _ _ N3). now apply find_previous_here. }
  assert (F2' : find_previous "h2" (mid ++ h2n :: rest) = Some (mkTag rest h2e)).
  { rewrite (find_previous_skip _ _ _ Mid). now apply find_previous_here. }
  assert (F2 : find_previous "h2" (near ++ h3n :: mid ++ h2n :: rest)
               = Some (mkTag rest h2e)).
  { rewrite (find_previous_skip _ _ _ N2). cbn [find_previous].
    now rewrite (h3_is_not_h2 _ _ H3). }
  unfold subdivision_of, Spec.subdivision_by_identity.
  rewrite F3, F2. cbn [before]. rewrite F2'.
  unfold eq_op, same_node. now rewrite Nat.eqb_refl.
Qed.

Lemma heading_between_is_subdivision_witness :
  subdivision_of [Samples.heading "p" "text"; Samples.heading "h3" " Quebec ";
                  Samples.heading "h2" "Canada"; Samples.heading "h2" "Canada"]
  = Some "Quebec".
Proof.
  refine (proj1 (heading_between_is_subdivision
                   [Samples.heading "p" "text"] [] [Samples.heading "h2" "Canada"]
                   (Samples.heading "h3" " Quebec ") (Samples.heading "h2" "Canada")
                   _ _ _ eq_refl _ eq_refl)).
  - repeat constructor.
  - constructor.
Defined.

(** X4. A level-2 heading that stands before the country heading is
    not the subdivision of the table, provided the level-1 heading
    before it, if there is one, differs in markup from the country
    heading: [subdivision_of] gives nothing. *)
Theorem earlier_subheading_is_ignored
    (near mid rest : list (node read_html_result))
    (h2n h3n : node read_html_result) (h2e h3e : elem) :
  Forall (fun n => named "h2" n = None /\ named "h3" n = None) near ->
  named "h2" h2n = Some h2e ->
  Forall (fun n => named "h3" n = None) mid ->
  named "h3" h3n = Some h3e ->
  match find_previous "h2" rest with
  | Some x => tag_eq (markup x) h2e = false
  | None => True
  end ->
  subdivision_of (near ++ h2n :: mid ++ h3n :: rest) = None.
Proof.
  intros Near H2 Mid H3 D.
  assert (N2 : Forall (fun n => named "h2" n = None) near)
    by (eapply Forall_impl; [|exact Near]; cbn; tauto).
  assert (N3 : Forall (fun n => named "h3" n = None) near)
    by (eapply Forall_impl; [|exact Near]; cbn; tauto).
  assert (F2 : find_previous "h2" (near ++ h2n :: mid ++ h3n :: rest)
               = Some (mkTag (mid ++ h3n :: rest) h2e)).
  { rewrite (find_previous_skip _ _ _ N2). now apply find_previous_here. }
  assert (F3 : find_previous "h3" (near ++ h2n :: mid ++ h3n :: rest)
               = Some (mkTag rest h3e)).
  { rewrite (find_previous_skip _ _ _ N3). cbn [find_previous].
    rewrite (h2_is_not_h3 _ _ H2). rewrite (find_previous_skip _ _ _ Mid).
    now apply find_previous_here. }
  unfold subdivision_of. rewrite F3, F2. cbn [before].
  destruct (find_previous "h2" rest) as [x|] eqn:Fx; [|reflexivity].
  unfold eq_op. cbn [markup]. rewrite D, orb_false_r.
  apply find_previous_nearest in Fx. destruct Fx as (skipped & n & E & _ & _).
  destruct (Nat.eqb_spec (position x) (position (mkTag (mid ++ h3n :: rest) h2e)))
    as [P|P]; [|reflexivity].
  exfalso. unfold position in P. cbn [before] in P.
  rewrite E in P. rewrite !length_app in P. cbn [length] in P.
  rewrite length_app in P. cbn [length] in P. lia.
Qed.

Lemma earlier_subheading_is_ignored_witness :
  subdivision_of [Samples.heading "h2" "France"; Samples.heading "h3" "Quebec";
                  Samples.heading "h2" "Canada"]
  = None.
Proof.
  refine (earlier_subheading_is_ignored
            [] [] [Samples.heading "h2" "Canada"]
            (Samples.heading "h2" "France") (Samples.heading "h3" "Quebec")
            _ _ _ eq_refl _ eq_refl _).
  - constructor.
  - constructor.
  - reflexivity.
Defined.

(** ** Headers that collide *)

Lemma positions_nonempty (c : string) (l : list string) (i : nat) :
  In c l -> positions_from i c l <> [].
Proof.
  intros H E. apply (count_occ_In string_dec) in H.
  rewrite <- (positions_count c l i), E in H. cbn in H. lia.
Qed.

Lemma clean_column_raises (df : frame string) (c : string) (e : exn) :
  In c (columns df) -> clean_column df c = Raise e ->
  e = AttributeError "'DataFrame' object has no attribute 'dtype'".
Proof.
  intros H. unfold clean_column.
  pose proof (positions_nonempty c (columns df) 0 H) as N.
  unfold positions. destruct (positions_from 0 c (columns df)) as [|j [|k r]].
  - contradiction.
  - destruct (dtype_eqb _ _); discriminate.
  - intros E. now injection E as <-.
Qed.

Lemma clean_loop_raises (cs : list string) (df : frame string) (e : exn) :
  incl cs (columns df) -> for_each clean_column cs df = Raise e ->
  e = AttributeError "'DataFrame' object has no attribute 'dtype'".
Proof.
  revert df. induction cs as [|c cs IH]; intros df I; cbn [for_each];
    [discriminate|].
  destruct (clean_column df c) as [d1|e1] eqn:E; unfold bind.
  - apply clean_column_inv in E. destruct E as [E _].
    apply IH. rewrite E. intros x Hx. apply I. now right.
  - intros H. injection H as <-.
    apply (clean_column_raises df c); [apply I; now left|exact E].
Qed.

Lemma fill_columns_app (exp : list string) (df : frame string) :
  exists extra,
    columns (fold_left
               (fun df col => if negb (has_column df col)
                              then setitem_new df col object NA else df)
               exp df)
    = columns df ++ extra.
Proof.
  revert df. induction exp as [|c exp IH]; intros df; cbn [fold_left].
  - exists []. now rewrite app_nil_r.
  - destruct (IH (if negb (has_column df c)
                  then setitem_new df c object NA else df)) as [extra E].
    rewrite E. destruct (has_column df c); cbn [negb].
    + now exists extra.
    + exists (c :: extra). unfold setitem_new, columns. cbn [cols].
      rewrite map_app, <- app_assoc. reflexivity.
Qed.

Lemma renamed_columns_app (df : frame label) :
  exists extra,
    columns (renamed df) = normalize_colnames (columns df) ++ extra.
Proof.
  unfold renamed, add_expected. cbv zeta.
  destruct (fill_columns_app expected
              (set_columns df (normalize_colnames (columns df)))) as [extra E].
  exists extra. rewrite E. unfold normalize_colnames.
  now rewrite set_columns_columns.
Qed.

Lemma renamed_has_subdivision (df : frame label) :
  has_column (renamed df) "Subdivision" = true
  <-> In "Subdivision" (normalize_colnames (columns df)).
Proof.
  unfold has_column. rewrite contains_In. unfold renamed. cbv zeta.
  rewrite add_expected_columns. unfold normalize_colnames.
  rewrite set_columns_columns. split; [|tauto].
  intros [H|H]; [exact H|]. cbn in H. intuition discriminate.
Qed.

Lemma with_headings_ok (country : string) (subdivision : option string)
    (df : frame label) :
  ~ In "Subdivision" (normalize_colnames (columns df)) ->
  with_headings country subdivision df
  = Ok (mkFrame (Cleanup.headed_cols df)
                (Cleanup.headed_rows country subdivision df)).
Proof.
  intros N. unfold with_headings. cbv zeta.
  assert (S : has_column (renamed df) "Subdivision" = false).
  { destruct (has_column (renamed df) "Subdivision") eqn:E; [|reflexivity].
    apply renamed_has_subdivision in E. contradiction. }
  rewrite (insert0_ok _ _ _ _ S). unfold bind.
  rewrite insert0_ok.
  - unfold Cleanup.headed_cols, Cleanup.headed_rows, Cleanup.subdivision_cell.
    cbn [cols rows]. now rewrite map_map.
  - pose proof (renamed_no_country df) as C.
    unfold has_column, columns, contains in *. cbn [cols map fst existsb].
    rewrite C. reflexivity.
Qed.

(** X5. Two headers of a table that get the same name (a "Notes" and a
    "Reason" column, say) end the run: line 99 reads [df[c].dtype] from
    what is then a DataFrame, and the AttributeError is not caught. *)
Theorem colliding_headers_abort (country : string) (subdivision : option string)
    (df : frame label) :
  ~ In "Subdivision" (normalize_colnames (columns df)) ->
  ~ NoDup (normalize_colnames (columns df)) ->
  table_frame country subdivision df
  = Raise (AttributeError "'DataFrame' object has no attribute 'dtype'").
Proof.
  intros S D. unfold table_frame. rewrite (with_headings_ok _ _ _ S).
  unfold bind at 1. cbv zeta.
  set (d := dropna_all _).
  destruct (for_each clean_column (columns d) d) as [d2|e] eqn:E; unfold bind.
  - exfalso. apply D. apply clean_loop_inv in E. destruct E as [_ U].
    apply single_positions_NoDup in U.
    change (columns d)
      with ("Country" :: "Subdivision" :: columns (renamed df)) in U.
    apply NoDup_cons_iff in U. destruct U as [_ U].
    apply NoDup_cons_iff in U. destruct U as [_ U].
    destruct (renamed_columns_app df) as [extra X]. rewrite X in U.
    exact (NoDup_app_remove_r _ _ U).
  - f_equal. apply (clean_loop_raises _ _ _ (incl_refl _) E).
Qed.

Lemma colliding_headers_abort_witness :
  table_frame "France" None Cleanup.notes_and_reason
  = Raise (AttributeError "'DataFrame' object has no attribute 'dtype'").
Proof.
  apply colliding_headers_abort.
  - vm_compute. intuition discriminate.
  - vm_compute. intros H. inversion H as [|? ? _ H1]; subst.
    inversion H1 as [|? ? N _]; subst. apply N. now left.
Defined.

(** X6. A table with a column called "Subdivision" ends the run: the
    ValueError of [df.insert] at line 93 is raised outside the [try] of
    line 80, so it is not skipped as the ValueError of [read_html]
    is. *)
Theorem subdivision_column_aborts (frames : list (frame string))
    (prev : list (node read_html_result)) (country : string) (df : frame label) :
  country_of NON_COUNTRY_H2 prev = Some country ->
  In "Subdivision" (normalize_colnames (columns df)) ->
  loop_body NON_COUNTRY_H2 frames (prev, Ok df)
  = Raise (ValueError "cannot insert Subdivision, already exists").
Proof.
  intros C S. unfold loop_body. rewrite C.
  unfold table_frame, with_headings. cbv zeta.
  apply renamed_has_subdivision in S.
  unfold insert0 at 1. rewrite S. reflexivity.
Qed.

Lemma subdivision_column_aborts_witness :
  loop_body NON_COUNTRY_H2 [] ([Samples.heading "h2" "France"],
                               Ok Cleanup.with_subdivision)
  = Raise (ValueError "cannot insert Subdivision, already exists").
Proof.
  apply (subdivision_column_aborts [] [Samples.heading "h2" "France"] "France").
  - reflexivity.
  - vm_compute. auto.
Defined.

(** ** The cleanup, column by column and row by row *)

Lemma series_clean (s : series) :
  replace "nan" "" (str_strip (astype_str s))
  = mkSeries object (map Cleanup.clean_text (values s)).
Proof.
  unfold replace, str_strip, astype_str. cbn [values s_dtype]. f_equal.
  rewrite !map_map. apply map_ext. intros c. unfold Cleanup.clean_text.
  now destruct (String.eqb (strip (str_of_cell c)) "nan").
Qed.

Lemma set_cells_map (j : nat) (h : list cell -> cell) (rs : list (list cell)) :
  set_cells j rs (map h rs) = map (fun r => set_nth j (h r) r) rs.
Proof.
  induction rs as [|r rs IH]; [reflexivity|]. cbn [map set_cells]. now rewrite IH.
Qed.

Lemma set_nth_same {A} (j : nat) (x : A) (l : list A) :
  nth_error l j = Some x -> set_nth j x l = l.
Proof.
  revert j. induction l as [|y l IH]; intros [|j]; cbn; try discriminate.
  - intros H. now injection H as ->.
  - intros H. now rewrite (IH j H).
Qed.

Lemma clean_upto_0 (cs : list (string * dtype)) (r : list cell) :
  Cleanup.clean_upto 0 cs r = r.
Proof. reflexivity. Qed.

Lemma clean_upto_nth (n : nat) (cs : list (string * dtype)) (r : list cell) :
  nth n (Cleanup.clean_upto n cs r) NaN = nth n r NaN.
Proof.
  revert cs r. induction n as [|n IH]; intros cs r; [reflexivity|].
  destruct cs as [|[l d] cs]; [reflexivity|]. destruct r as [|c r]; [reflexivity|].
  cbn [Cleanup.clean_upto nth]. apply IH.
Qed.

Lemma clean_upto_step (n : nat) (cs : list (string * dtype)) (r : list cell)
    (l : string) (d : dtype) :
  nth_error cs n = Some (l, d) -> n < length r ->
  Cleanup.clean_upto (S n) cs r
  = if dtype_eqb d object
    then set_nth n (Cleanup.clean_text (nth n r NaN)) (Cleanup.clean_upto n cs r)
    else Cleanup.clean_upto n cs r.
Proof.
  revert cs r. induction n as [|n IH]; intros cs r E L.
  - destruct cs as [|[l0 d0] cs]; [discriminate|]. injection E as -> ->.
    destruct r as [|c r]; [cbn in L; lia|].
    cbn [Cleanup.clean_upto nth set_nth].
    destruct (dtype_eqb d object); destruct cs, r; reflexivity.
  - destruct cs as [|[l0 d0] cs]; [discriminate|].
    destruct r as [|c r]; [cbn in L; lia|].
    cbn [nth_error] in E. cbn [length] in L.
    change (Cleanup.clean_upto (S (S n)) ((l0, d0) :: cs) (c :: r))
      with ((if dtype_eqb d0 object then Cleanup.clean_text c else c)
              :: Cleanup.clean_upto (S n) cs r).
    rewrite (IH cs r E) by lia.
    change (Cleanup.clean_upto (S n) ((l0, d0) :: cs) (c :: r))
      with ((if dtype_eqb d0 object then Cleanup.clean_text c else c)
              :: Cleanup.clean_upto n cs r).
    cbn [nth set_nth]. now destruct (dtype_eqb d object).
Qed.

Lemma positions_absent (c : string) (l : list string) (i : nat) :
  ~ In c l -> positions_from i c l = [].
Proof.
  revert i. induction l as [|x l IH]; intros i N; [reflexivity|].
  cbn [positions_from]. destruct (String.eqb_spec x c) as [->|_].
  - exfalso. apply N. now left.
  - apply IH. intros H. apply N. now right.
Qed.

Lemma positions_unique (c : string) (pre post : list string) (i : nat) :
  NoDup (pre ++ c :: post) ->
  positions_from i c (pre ++ c :: post) = [i + length pre].
Proof.
  revert i. induction pre as [|x pre IH]; intros i D.
  - cbn [app positions_from length]. rewrite String.eqb_refl.
    apply NoDup_cons_iff in D. destruct D as [N _].
    rewrite (positions_absent c post (S i) N). cbn. f_equal. lia.
  - cbn [app] in D. apply NoDup_cons_iff in D. destruct D as [N D].
    cbn [app positions_from length]. destruct (String.eqb_spec x c) as [->|_].
    + exfalso. apply N. apply in_or_app. right. now left.
    + rewrite (IH (S i) D). cbn. f_equal. lia.
Qed.

Lemma clean_loop_from (cs pre post : list (string * dtype))
    (rs : list (list cell)) :
  cs = pre ++ post -> NoDup (map fst cs) ->
  Forall (fun r => length r = length cs) rs ->
  for_each clean_column (map fst post)
    (mkFrame cs (map (Cleanup.clean_upto (length pre) cs) rs))
  = Ok (mkFrame cs (map (Cleanup.clean_row cs) rs)).
Proof.
  revert pre. induction post as [|[c d] post IH]; intros pre E D W.
  - rewrite app_nil_r in E. subst pre. reflexivity.
  - cbn [map for_each fst].
    assert (N : nth_error cs (length pre) = Some (c, d)).
    { rewrite E, nth_error_app2, Nat.sub_diag by lia. reflexivity. }
    assert (P : positions
                  (mkFrame cs (map (Cleanup.clean_upto (length pre) cs) rs)) c
                = [length pre]).
    { unfold positions, columns. cbn [cols]. rewrite E, map_app. cbn [map fst].
      rewrite E, map_app in D. cbn [map fst] in D.
      rewrite (positions_unique c _ _ 0 D), length_map. reflexivity. }
    assert (Step : clean_column
                     (mkFrame cs (map (Cleanup.clean_upto (length pre) cs) rs)) c
                   = Ok (mkFrame cs
                           (map (Cleanup.clean_upto (S (length pre)) cs) rs))).
    { unfold clean_column. rewrite P.
      assert (T : s_dtype (column_at
                    (mkFrame cs (map (Cleanup.clean_upto (length pre) cs) rs))
                    (length pre)) = d).
      { unfold column_at. cbn [s_dtype cols].
        apply (nth_error_nth _ _ object). rewrite nth_error_map, N. reflexivity. }
      rewrite T. destruct (dtype_eqb d object) eqn:O.
      - f_equal. rewrite series_clean. unfold set_column_at.
        cbn [cols rows s_dtype values]. rewrite N. f_equal.
        + apply set_nth_same. rewrite N. destruct d; try discriminate. reflexivity.
        + unfold column_at. cbn [values rows]. rewrite map_map.
          rewrite (set_cells_map (length pre)
                     (fun r => Cleanup.clean_text (nth (length pre) r NaN))).
          rewrite map_map. apply map_ext_in. intros r Hr.
          rewrite (clean_upto_step _ _ _ _ _ N), O, clean_upto_nth;
            [reflexivity|].
          rewrite Forall_forall in W. rewrite (W r Hr).
          apply nth_error_Some. congruence.
      - f_equal. f_equal. apply map_ext_in. intros r Hr.
        rewrite (clean_upto_step _ _ _ _ _ N), O; [reflexivity|].
        rewrite Forall_forall in W. rewrite (W r Hr).
        apply nth_error_Some. congruence. }
    rewrite Step. unfold bind.
    replace (S (length pre)) with (length (pre ++ [(c, d)]))
      by (rewrite length_app; cbn; lia).
    apply IH; [|exact D|exact W]. now rewrite <- app_assoc.
Qed.

Lemma clean_loop_rows (d : frame string) :
  NoDup (columns d) -> Cleanup.well_formed d ->
  for_each clean_column (columns d) d
  = Ok (mkFrame (cols d) (map (Cleanup.clean_row (cols d)) (rows d))).
Proof.
  intros D W. destruct d as [cs rs]. unfold columns in *. cbn [cols rows] in *.
  rewrite <- (clean_loop_from cs [] cs rs eq_refl D W).
  cbn [length]. f_equal. f_equal.
  rewrite <- (map_id rs) at 1. apply map_ext. intros r. reflexivity.
Qed.

Lemma relabel_length {L M} (cs : list (L * dtype)) (f : L -> M) :
  length (relabel cs (map f (map fst cs))) = length cs.
Proof.
  induction cs as [|[l d] cs IH]; [reflexivity|]. cbn. now rewrite IH.
Qed.

Lemma fill_well_formed (exp : list string) (df : frame string) :
  Cleanup.well_formed df ->
  Cleanup.well_formed
    (fold_left (fun df col => if negb (has_column df col)
                              then setitem_new df col object NA else df)
               exp df).
Proof.
  revert df. induction exp as [|c exp IH]; intros df W; [exact W|].
  cbn [fold_left]. apply IH. destruct (has_column df c); cbn [negb]; [exact W|].
  unfold Cleanup.well_formed, setitem_new in *. cbn [cols rows].
  apply Forall_map. eapply Forall_impl; [|exact W]. cbn. intros r E.
  rewrite !length_app, E. reflexivity.
Qed.

Lemma fill_NoDup (exp : list string) (df : frame string) :
  NoDup (columns df) ->
  NoDup (columns
           (fold_left (fun df col => if negb (has_column df col)
                                     then setitem_new df col object NA else df)
                      exp df)).
Proof.
  revert df. induction exp as [|c exp IH]; intros df D; [exact D|].
  cbn [fold_left]. apply IH. destruct (has_column df c) eqn:E; cbn [negb];
    [exact D|].
  unfold setitem_new, columns. cbn [cols]. rewrite map_app. cbn [map fst].
  apply contains_not_In in E. fold (columns df).
  apply NoDup_app; [exact D|repeat constructor; intros []|].
  intros x Hx [<-|[]]. contradiction.
Qed.

Lemma renamed_well_formed (df : frame label) :
  Cleanup.well_formed df -> Cleanup.well_formed (renamed df).
Proof.
  intros W. unfold renamed, add_expected. cbv zeta. apply fill_well_formed.
  unfold Cleanup.well_formed, set_columns, normalize_colnames, columns in *.
  cbn [cols rows]. now rewrite relabel_length.
Qed.

Lemma renamed_NoDup (df : frame label) :
  NoDup (normalize_colnames (columns df)) -> NoDup (columns (renamed df)).
Proof.
  intros D. unfold renamed, add_expected. cbv zeta. apply fill_NoDup.
  unfold normalize_colnames in *. now rewrite set_columns_columns.
Qed.

Lemma headed_NoDup (df : frame label) :
  NoDup (normalize_colnames (columns df)) ->
  ~ In "Subdivision" (normalize_colnames (columns df)) ->
  NoDup (map fst (Cleanup.headed_cols df)).
Proof.
  intros D S. unfold Cleanup.headed_cols. cbn [map fst].
  fold (columns (renamed df)).
  pose proof (proj1 (contains_not_In _ _) (renamed_no_country df)) as C.
  assert (S' : ~ In "Subdivision" (columns (renamed df))).
  { intros H. apply S. apply (proj1 (renamed_has_subdivision df)).
    unfold has_column. exact (proj2 (contains_In _ _) H). }
  constructor; [|constructor; [exact S'|now apply renamed_NoDup]].
  intros [H|H]; [discriminate|contradiction].
Qed.

Lemma headed_well_formed (country : string) (subdivision : option string)
    (df : frame label) :
  Cleanup.well_formed df ->
  Cleanup.well_formed (mkFrame (Cleanup.headed_cols df)
                               (Cleanup.headed_rows country subdivision df)).
Proof.
  intros W. apply renamed_well_formed in W.
  unfold Cleanup.well_formed, Cleanup.headed_cols, Cleanup.headed_rows in *.
  cbn [cols rows]. apply Forall_map. eapply Forall_impl; [|exact W].
  cbn. intros r E. now rewrite E.
Qed.

Lemma dropna_headed (country : string) (subdivision : option string)
    (df : frame label) :
  dropna_all (mkFrame (Cleanup.headed_cols df)
                      (Cleanup.headed_rows country subdivision df))
  = mkFrame (Cleanup.headed_cols df) (Cleanup.headed_rows country subdivision df).
Proof.
  unfold dropna_all, Cleanup.headed_rows. cbn [cols rows]. f_equal.
  induction (rows (renamed df)) as [|r rs IH]; [reflexivity|].
  cbn [map filter forallb isna andb negb]. now rewrite IH.
Qed.

Lemma index_of_app (c : string) (pre post : list string) :
  ~ In c pre -> index_of c (pre ++ c :: post) = Some (length pre).
Proof.
  induction pre as [|x pre IH]; intros N.
  - cbn. now rewrite String.eqb_refl.
  - cbn [app index_of length]. destruct (String.eqb_spec x c) as [->|_].
    + exfalso. apply N. now left.
    + rewrite IH; [reflexivity|]. intros H. apply N. now right.
Qed.

Lemma unique_position (c : string) (l : list string) :
  NoDup l -> In c l ->
  exists j, index_of c l = Some j /\ positions_from 0 c l = [j].
Proof.
  intros D H. apply in_split in H. destruct H as (pre & post & ->).
  exists (length pre). split.
  - apply index_of_app. intros H. apply NoDup_remove_2 in D.
    apply D. apply in_or_app. now left.
  - now rewrite (positions_unique c pre post 0 D).
Qed.

Lemma headed_has_title (df : frame label) :
  In "Title" (map fst (Cleanup.headed_cols df)).
Proof.
  unfold Cleanup.headed_cols. cbn [map fst]. right. right.
  fold (columns (renamed df)). unfold renamed. cbv zeta.
  apply add_expected_columns. right. now left.
Qed.

Lemma table_frame_cleaned (country : string) (subdivision : option string)
    (df : frame label) :
  Cleanup.well_formed df ->
  NoDup (normalize_colnames (columns df)) ->
  ~ In "Subdivision" (normalize_colnames (columns df)) ->
  exists title,
    index_of "Title" (map fst (Cleanup.headed_cols df)) = Some title
    /\ table_frame country subdivision df
       = Ok (Cleanup.cleaned_frame country subdivision df title).
Proof.
  intros W D S.
  destruct (unique_position "Title" _ (headed_NoDup df D S) (headed_has_title df))
    as (title & I & P).
  exists title. split; [exact I|].
  unfold table_frame. rewrite (with_headings_ok _ _ _ S). unfold bind at 1.
  cbv zeta. rewrite dropna_headed.
  rewrite clean_loop_rows;
    [|exact (headed_NoDup df D S)|now apply headed_well_formed].
  unfold bind. cbn [cols rows].
  rewrite drop_untitled_filter with (j := title); [reflexivity|exact P].
Qed.

(** X7. For a table whose rows have one cell per column, whose headers
    are renamed to distinct names and none to "Subdivision", the loop of
    lines 98-100 and the filter of line 103 amount to one pass over the
    rows: every cell of an object column becomes its trimmed text, with
    "nan" emptied, the other cells are kept, and a row stays when its
    Title prints as text that is not empty. *)
Theorem table_frame_row_by_row (country : string) (subdivision : option string)
    (df : frame label) :
  Cleanup.well_formed df ->
  NoDup (normalize_colnames (columns df)) ->
  ~ In "Subdivision" (normalize_colnames (columns df)) ->
  exists title,
    index_of "Title" (map fst (Cleanup.headed_cols df)) = Some title
    /\ table_frame country subdivision df
       = Ok (Cleanup.cleaned_frame country subdivision df title).
Proof. apply table_frame_cleaned. Qed.

Lemma table_frame_row_by_row_witness :
  exists title,
    index_of "Title" (map fst (Cleanup.headed_cols Samples.two_columns))
    = Some title
    /\ table_frame "Canada" (Some "Quebec") Samples.two_columns
       = Ok (Cleanup.cleaned_frame "Canada" (Some "Quebec") Samples.two_columns
               title).
Proof.
  apply table_frame_row_by_row.
  - repeat constructor.
  - vm_compute. repeat constructor; cbn; intuition discriminate.
  - vm_compute. intuition discriminate.
Defined.

(** ** What the cleanup guarantees *)

Lemma clean_text_trimmed (c : cell) :
  exists s, Cleanup.clean_text c = Str s /\ strip s = s /\ s <> "nan".
Proof.
  unfold Cleanup.clean_text.
  destruct (String.eqb_spec (strip (str_of_cell c)) "nan") as [E|N].
  - exists "". repeat split. discriminate.
  - exists (strip (str_of_cell c)). repeat split; [apply strip_idem|exact N].
Qed.

Lemma clean_row_cells (cs : list (string * dtype)) (r : list cell) :
  length r = length cs ->
  Forall2 (fun col c =>
             snd col = object ->
             exists s, c = Str s /\ strip s = s /\ s <> "nan")
          cs (Cleanup.clean_row cs r).
Proof.
  unfold Cleanup.clean_row. revert r.
  induction cs as [|[l d] cs IH]; intros r L.
  - destruct r; [constructor|discriminate].
  - destruct r as [|c r]; [discriminate|]. injection L as L.
    cbn [length Cleanup.clean_upto]. constructor; [|now apply IH].
    cbn [snd]. intros ->. cbn [dtype_eqb]. apply clean_text_trimmed.
Qed.

Lemma clean_row_nth (cs : list (string * dtype)) (r : list cell) (j : nat)
    (l : string) :
  nth_error cs j = Some (l, object) -> length r = length cs ->
  nth j (Cleanup.clean_row cs r) NaN = Cleanup.clean_text (nth j r NaN).
Proof.
  unfold Cleanup.clean_row. revert r j.
  induction cs as [|[l0 d0] cs IH]; intros r j E L; [destruct j; discriminate|].
  destruct r as [|c r]; [discriminate|]. injection L as L.
  cbn [length Cleanup.clean_upto]. destruct j as [|j].
  - injection E as -> ->. reflexivity.
  - cbn [nth nth_error] in *. now apply IH.
Qed.

(** X8. Under the same conditions, every cell that the frame of a table
    holds in a column of dtype object is a text without white space at
    either end, and never the text "nan". *)
Theorem text_cells_are_trimmed (country : string) (subdivision : option string)
    (df : frame label) (d : frame string) :
  Cleanup.well_formed df ->
  NoDup (normalize_colnames (columns df)) ->
  ~ In "Subdivision" (normalize_colnames (columns df)) ->
  table_frame country subdivision df = Ok d ->
  Forall (fun r =>
            Forall2 (fun col c =>
                       snd col = object ->
                       exists s, c = Str s /\ strip s = s /\ s <> "nan")
                    (cols d) r)
         (rows d).
Proof.
  intros W D S E.
  destruct (table_frame_cleaned country subdivision df W D S) as (title & _ & T).
  rewrite T in E. injection E as <-.
  unfold Cleanup.cleaned_frame. cbn [cols rows].
  apply Forall_forall. intros r Hr. apply filter_In in Hr. destruct Hr as [Hr _].
  apply in_map_iff in Hr. destruct Hr as (r0 & <- & Hr0).
  apply clean_row_cells.
  pose proof (headed_well_formed country subdivision df W) as HW.
  unfold Cleanup.well_formed in HW. cbn [cols rows] in HW.
  rewrite Forall_forall in HW. exact (HW r0 Hr0).
Qed.

Lemma text_cells_are_trimmed_witness :
  Forall (fun r =>
            Forall2 (fun col c =>
                       snd col = object ->
                       exists s, c = Str s /\ strip s = s /\ s <> "nan")
                    (cols (Cleanup.cleaned_frame "Canada" (Some "Quebec")
                             Samples.two_columns 2)) r)
         (rows (Cleanup.cleaned_frame "Canada" (Some "Quebec")
                  Samples.two_columns 2)).
Proof.
  apply (text_cells_are_trimmed "Canada" (Some "Quebec") Samples.two_columns).
  - repeat constructor.
  - vm_compute. repeat constructor; cbn; intuition discriminate.
  - vm_compute. intuition discriminate.
  - vm_compute. reflexivity.
Defined.

Lemma index_of_unique (c : string) (l : list string) (j : nat) :
  NoDup l -> nth_error l j = Some c -> index_of c l = Some j.
Proof.
  intros D E.
  destruct (unique_position c l D (nth_error_In _ _ E)) as (k & I & _).
  rewrite I. f_equal. apply index_of_Some in I.
  rewrite NoDup_nth_error in D. symmetry. apply D; [|congruence].
  apply nth_error_Some. congruence.
Qed.

(** X9. The invariant of the output, for one table and under the
    conditions the code needs: when the table is accepted under a
    country that does not read "nan" and its Title column is of dtype
    object, every row of its frame is written with that country and
    with a Title that is not empty. *)
Theorem titled_and_located_rows (prev : list (node read_html_result))
    (country : string) (subdivision : option string) (df : frame label)
    (title : nat) (d : frame string) :
  Cleanup.well_formed df ->
  NoDup (normalize_colnames (columns df)) ->
  ~ In "Subdivision" (normalize_colnames (columns df)) ->
  country_of NON_COUNTRY_H2 prev = Some country ->
  country <> "nan" ->
  nth_error (Cleanup.headed_cols df) title = Some ("Title", object) ->
  table_frame country subdivision df = Ok d ->
  Forall (fun r =>
            Spec.field (columns d) (map csv_field r) "Country" = country
            /\ Spec.field (columns d) (map csv_field r) "Title" <> "")
         (rows d).
Proof.
  intros W D S C N T E.
  destruct (table_frame_cleaned country subdivision df W D S) as (title' & I & F).
  rewrite F in E. injection E as <-.
  assert (I' : index_of "Title" (map fst (Cleanup.headed_cols df)) = Some title).
  { apply index_of_unique; [now apply headed_NoDup|].
    rewrite nth_error_map, T. reflexivity. }
  assert (title' = title) by congruence. subst title'.
  unfold Cleanup.cleaned_frame, columns. cbn [cols rows].
  apply Forall_forall. intros r Hr. apply filter_In in Hr.
  destruct Hr as [Hr Ti]. apply in_map_iff in Hr. destruct Hr as (r0 & <- & Hr0).
  pose proof (headed_well_formed country subdivision df W) as HW.
  unfold Cleanup.well_formed in HW. cbn [cols rows] in HW.
  rewrite Forall_forall in HW. specialize (HW r0 Hr0).
  unfold Spec.field. rewrite I'.
  change (index_of "Country" (map fst (Cleanup.headed_cols df))) with (Some 0).
  assert (M : forall j (r : list cell),
             nth j (map csv_field r) "" = csv_field (nth j r NaN))
    by (intros j r; exact (map_nth csv_field r NaN j)).
  rewrite !M.
  destruct (country_trimmed _ _ C) as [CT _].
  split.
  - rewrite (clean_row_nth (Cleanup.headed_cols df) r0 0 "Country" eq_refl HW).
    unfold Cleanup.headed_rows in Hr0. apply in_map_iff in Hr0.
    destruct Hr0 as (r1 & <- & _). cbn [nth].
    unfold Cleanup.clean_text. cbn [str_of_cell]. rewrite CT.
    destruct (String.eqb_spec country "nan"); [contradiction|reflexivity].
  - unfold Cleanup.titled in Ti.
    unfold Cleanup.titled in Ti.
    rewrite (clean_row_nth (Cleanup.headed_cols df) r0 title "Title" T HW)
      in Ti |- *.
    destruct (clean_text_trimmed (nth title r0 NaN)) as (s & Es & _ & _).
    rewrite Es in Ti |- *. cbn [str_of_cell csv_field] in Ti |- *.
    intros E. rewrite E in Ti. discriminate Ti.
Qed.

Lemma titled_and_located_rows_witness :
  Forall (fun r =>
            Spec.field (columns Samples.ulysses_frame) (map csv_field r) "Country"
            = "Canada"
            /\ Spec.field (columns Samples.ulysses_frame) (map csv_field r) "Title"
               <> "")
         (rows Samples.ulysses_frame).
Proof.
  apply (titled_and_located_rows [Samples.heading "h2" "Canada"] "Canada"
           (Some "Quebec") Samples.two_columns 2).
  - repeat constructor.
  - vm_compute. repeat constructor; cbn; intuition discriminate.
  - vm_compute. intuition discriminate.
  - reflexivity.
  - discriminate.
  - reflexivity.
  - vm_compute. reflexivity.
Defined.

(** ** What the file keeps *)

Lemma first_seen_NoDup (l : list string) : NoDup (Spec.first_seen l).
Proof.
  induction l as [|x l IH]; cbn [Spec.first_seen]; constructor.
  - intros H. apply filter_In in H. destruct H as [_ H].
    now rewrite String.eqb_refl in H.
  - now apply NoDup_filter.
Qed.

Lemma first_NoDup : NoDup first.
Proof.
  apply (NoDup_count_occ' string_dec). intros x H. unfold first in *.
  cbn [In] in H.
  repeat (destruct H as [<-|H]; [vm_compute; reflexivity|]). destruct H.
Qed.

Lemma header_NoDup (frames : list (frame string)) : NoDup (Spec.header frames).
Proof.
  unfold Spec.header. apply NoDup_app.
  - exact first_NoDup.
  - apply NoDup_filter, first_seen_NoDup.
  - intros x Hx Hf. apply filter_In in Hf. destruct Hf as [_ Hf].
    apply contains_In in Hx. now rewrite Hx in Hf.
Qed.

Lemma header_covers (frames : list (frame string)) (f : frame string) (l : string) :
  In f frames -> In l (columns f) -> In l (Spec.header frames).
Proof.
  intros Hf Hl. unfold Spec.header. apply in_or_app.
  destruct (contains first l) eqn:E; [left; now apply contains_In|].
  right. apply filter_In. split; [|now rewrite E].
  apply first_seen_In, in_flat_map. now exists f.
Qed.

Lemma index_of_None (c : string) (l : list string) :
  ~ In c l -> index_of c l = None.
Proof.
  induction l as [|x l IH]; intros N; [reflexivity|]. cbn [index_of].
  destruct (String.eqb_spec x c) as [->|_]; [exfalso; apply N; now left|].
  rewrite IH; [reflexivity|]. intros H. apply N. now right.
Qed.

Lemma field_of_map (h : list string) (g : string -> string) (l : string) :
  NoDup h -> In l h -> Spec.field h (map g h) l = g l.
Proof.
  intros D H. apply In_nth_error in H. destruct H as [j E].
  unfold Spec.field. rewrite (index_of_unique _ _ _ D E).
  apply nth_error_nth. now rewrite nth_error_map, E.
Qed.

(** X10. Nothing is lost between the frames and the file that [main]
    writes: the header has no repeated column, and every row of every
    collected frame has a record in the file that holds, under the
    label of each column of the frame, the cell of that column as its
    column is typed in the file (a text as it is), and the empty field
    under every other column. *)
Theorem file_keeps_every_cell (p : page) (w : world)
    (body : list (node read_html_result)) (frames : list (frame string))
    (f : frame string) (r : list cell) :
  content p = Some body ->
  collect NON_COUNTRY_H2 (preamble p) body = Ok frames ->
  In f frames -> In r (rows f) ->
  exists h recs record,
    read_file csv_path (fst (main NON_COUNTRY_H2 p w)) = Some (h :: recs)
    /\ NoDup h
    /\ In record recs
    /\ (forall j l,
           nth_error (columns f) j = Some l ->
           Spec.field h record l
           = csv_field (Spec.written frames l (nth j r NaN)))
    /\ (forall j l s,
           nth_error (columns f) j = Some l -> nth j r NaN = Str s ->
           Spec.field h record l = s)
    /\ (forall l, In l h -> ~ In l (columns f) -> Spec.field h record l = "").
Proof.
  intros C E Hf Hr.
  assert (N : frames <> []) by (intros ->; destruct Hf).
  pose proof (collect_canonical _ _ _ _ E) as K.
  assert (D : NoDup (columns f)).
  { rewrite Forall_forall in K. exact (proj1 (K f Hf)). }
  set (g := fun l => csv_field (Spec.written frames l (Spec.cell_under f r l))).
  assert (G : forall j l, nth_error (columns f) j = Some l ->
              Spec.field (Spec.header frames) (map g (Spec.header frames)) l
              = csv_field (Spec.written frames l (nth j r NaN))).
  { intros j l El.
    rewrite (field_of_map _ g l (header_NoDup frames)
               (header_covers frames f l Hf (nth_error_In _ _ El))).
    unfold g, Spec.cell_under. now rewrite (index_of_unique _ _ _ D El). }
  exists (Spec.header frames), (Spec.records frames), (map g (Spec.header frames)).
  split; [|split; [|split; [|split; [|split]]]].
  - rewrite (main_writes _ _ w _ _ C E N).
    unfold read_file, write_file, print. cbn [fst files List.find].
    unfold csv_path. rewrite String.eqb_refl. reflexivity.
  - apply header_NoDup.
  - unfold Spec.records. apply in_flat_map. exists f. split; [exact Hf|].
    apply in_map_iff. now exists r.
  - exact G.
  - intros j l s El Es. rewrite (G j l El), Es. unfold Spec.written.
    now destruct (concat_dtype frames l).
  - intros l Hl Nl. rewrite (field_of_map _ g l (header_NoDup frames) Hl).
    unfold g, Spec.cell_under. rewrite (index_of_None _ _ Nl).
    now apply missing_cell_written.
Qed.

Lemma file_keeps_every_cell_witness :
  exists h recs record,
    read_file csv_path
      (fst (main NON_COUNTRY_H2 Samples.two_tables_page Samples.nothing))
    = Some (h :: recs)
    /\ NoDup h
    /\ In record recs
    /\ (forall j l,
           nth_error (columns Samples.ulysses_frame) j = Some l ->
           Spec.field h record l
           = csv_field (Spec.written Samples.two_frames l
                          (nth j [Str "Canada"; Str "Quebec"; Str "Ulysses";
                                  Str "James Joyce"; Str "<NA>"; Str "<NA>";
                                  Str "<NA>"; Str "<NA>"; Str "<NA>"] NaN)))
    /\ (forall j l s,
           nth_error (columns Samples.ulysses_frame) j = Some l ->
           nth j [Str "Canada"; Str "Quebec"; Str "Ulysses";
                  Str "James Joyce"; Str "<NA>"; Str "<NA>";
                  Str "<NA>"; Str "<NA>"; Str "<NA>"] NaN = Str s ->
           Spec.field h record l = s)
    /\ (forall l, In l h -> ~ In l (columns Samples.ulysses_frame) ->
                  Spec.field h record l = "").
Proof.
  apply (file_keeps_every_cell Samples.two_tables_page Samples.nothing
           [Samples.heading "h2" "Canada"; Samples.heading "h3" "Quebec";
            Samples.wikitable (Ok Samples.two_columns);
            Samples.heading "h2" "France";
            Samples.wikitable (Ok Samples.three_columns);
            Samples.heading "h2" "References";
            Samples.wikitable (Ok Samples.two_columns)]
           Samples.two_frames Samples.ulysses_frame).
  - reflexivity.
  - vm_compute. reflexivity.
  - now left.
  - now left.
Defined.

Lemma rows_length {A} (g : frame string -> list cell -> A)
    (frames : list (frame string)) :
  length (flat_map (fun f => map (g f) (rows f)) frames)
  = list_sum (map len frames).
Proof.
  induction frames as [|f frames IH]; [reflexivity|].
  cbn [flat_map map list_sum]. rewrite length_app, length_map, IH. reflexivity.
Qed.

Lemma records_length (frames : list (frame string)) :
  length (Spec.records frames) = list_sum (map len frames).
Proof. unfold Spec.records. apply rows_length. Qed.

(** X11. The count that the script prints is the number of records of
    the file after the header, and the sum of the lengths of the frames
    collected; one line is printed, after the lines that were there. *)
Theorem report_counts_the_records (p : page) (w : world)
    (body : list (node read_html_result)) (frames : list (frame string)) :
  content p = Some body ->
  collect NON_COUNTRY_H2 (preamble p) body = Ok frames ->
  frames <> [] ->
  stdout (fst (main NON_COUNTRY_H2 p w))
  = stdout w
    ++ [("Wrote " ++ str_of_int (Z.of_nat (list_sum (map len frames)))
         ++ " rows -> " ++ csv_path)%string]
  /\ option_map (@length (list string))
       (read_file csv_path (fst (main NON_COUNTRY_H2 p w)))
     = Some (S (list_sum (map len frames))).
Proof.
  intros C E N. rewrite (main_writes _ _ w _ _ C E N).
  unfold print, write_file, read_file. cbn [fst stdout files List.find].
  unfold csv_path at 2. rewrite String.eqb_refl. cbn [option_map snd length].
  unfold Spec.report. now rewrite records_length.
Qed.

Lemma report_counts_the_records_witness :
  stdout (fst (main NON_COUNTRY_H2 Samples.two_tables_page Samples.nothing))
  = stdout Samples.nothing
    ++ [("Wrote " ++ str_of_int (Z.of_nat (list_sum (map len Samples.two_frames)))
         ++ " rows -> " ++ csv_path)%string].
Proof.
  refine (proj1 (report_counts_the_records Samples.two_tables_page
                   Samples.nothing _ Samples.two_frames eq_refl _ _)).
  - vm_compute. reflexivity.
  - discriminate.
Defined.

(** ** The whole script *)

Lemma raise_for_status_None (r : Script.response) :
  Script.raise_for_status r = None
  <-> (Script.status_code r < 400 \/ 600 <= Script.status_code r)%Z.
Proof.
  unfold Script.raise_for_status.
  destruct (Z.leb_spec 400 (Script.status_code r));
    destruct (Z.ltb_spec (Script.status_code r) 500);
    destruct (Z.leb_spec 500 (Script.status_code r));
    destruct (Z.ltb_spec (Script.status_code r) 600);
    cbn [andb]; split; intros K; try discriminate; try reflexivity; lia.
Qed.

Lemma main_ends_well (nc : list string) (p : page) (w : world) :
  snd (main nc p w) = None
  <-> exists body f fs,
        content p = Some body /\ collect nc (preamble p) body = Ok (f :: fs).
Proof.
  split.
  - unfold main. destruct (content p) as [body|]; [|discriminate].
    destruct (collect nc (preamble p) body) as [[|f fs]|e] eqn:E;
      try discriminate.
    intros _. now exists body, f, fs.
  - intros (body & f & fs & C & E).
    now rewrite (main_writes nc p w body (f :: fs) C E).
Qed.

Lemma main_raises_unchanged (nc : list string) (p : page) (w : world) (e : exn) :
  snd (main nc p w) = Some e -> fst (main nc p w) = w.
Proof.
  destruct (main_cases nc p) as [(e' & H)|(data & line & H)]; rewrite H;
    [reflexivity|discriminate].
Qed.

(** X12. The script ends normally exactly when the request is answered
    with a status outside 400-599, the page has its content body, and
    the loop over the tables ends with at least one frame; whenever it
    ends with an error, of the request or of [main], no file is written
    and nothing is printed. *)
Theorem script_succeeds_iff (net : Script.network) (soup : string -> page)
    (w : world) :
  (snd (Script.script net soup w) = None
   <-> exists r body f fs,
         net Script.URL [("User-Agent", "Mozilla/5.0")] = inl r
         /\ (Script.status_code r < 400 \/ 600 <= Script.status_code r)%Z
         /\ content (soup (Script.text r)) = Some body
         /\ collect NON_COUNTRY_H2 (preamble (soup (Script.text r))) body
            = Ok (f :: fs))
  /\ match snd (Script.script net soup w) with
     | Some _ => fst (Script.script net soup w) = w
     | None => read_file csv_path (fst (Script.script net soup w)) <> None
     end.
Proof.
  unfold Script.script, Script.fetch_html.
  destruct (net Script.URL [("User-Agent", "Mozilla/5.0")]) as [r|msg] eqn:N.
  - destruct (Script.raise_for_status r) as [e|] eqn:R.
    + split; [|reflexivity]. split; [discriminate|].
      intros (r' & body & f & fs & E & S & _). injection E as <-.
      apply raise_for_status_None in S. congruence.
    + destruct (main NON_COUNTRY_H2 (soup (Script.text r)) w) as [w' raised] eqn:M.
      cbn [fst snd]. split.
      * split.
        -- intros H. destruct raised; [discriminate|].
           destruct (proj1 (main_ends_well NON_COUNTRY_H2 (soup (Script.text r)) w))
             as (body & f & fs & C & E); [now rewrite M|].
           exists r, body, f, fs. repeat split; try assumption.
           now apply raise_for_status_None.
        -- intros (r' & body & f & fs & E & _ & C & K). injection E as <-.
           assert (H : snd (main NON_COUNTRY_H2 (soup (Script.text r)) w) = None)
             by (apply main_ends_well; now exists body, f, fs).
           rewrite M in H. cbn [snd] in H. now rewrite H.
      * destruct raised as [e|]; cbn [option_map].
        -- pose proof (main_raises_unchanged NON_COUNTRY_H2
                         (soup (Script.text r)) w e) as U.
           rewrite M in U. now apply U.
        -- destruct (main_cases NON_COUNTRY_H2 (soup (Script.text r)))
             as [(e' & H)|(data & line & H)]; rewrite H in M;
             [discriminate|].
           injection M as <-. unfold read_file, print, write_file.
           cbn [files List.find fst]. unfold csv_path.
           rewrite String.eqb_refl. discriminate.
  - split; [|reflexivity]. split; [discriminate|].
    intros (r' & body & f & fs & E & _). discriminate.
Qed.

(** ** The nodes that the script looks at *)

Lemma named_read_by_script {T} (name : string) (n : node T) (e : elem) :
  name = "h2" \/ name = "h3" ->
  named name n = Some e -> Cleanup.read_by_script n = true.
Proof.
  intros H. destruct n as [[s|s|m cs d k]|cs t]; cbn [named]; try discriminate.
  destruct (String.eqb m name) eqn:E; [|discriminate].
  apply String.eqb_eq in E. subst m. intros _.
  destruct H as [-> | ->]; reflexivity.
Qed.

Lemma named_h2_h3 {T} (n : node T) (e e' : elem) :
  named "h2" n = Some e -> named "h3" n = Some e' -> False.
Proof.
  destruct n as [[s|s|m cs d k]|cs t]; cbn [named]; try discriminate.
  destruct (String.eqb m "h2") eqn:E2; [|discriminate].
  destruct (String.eqb m "h3") eqn:E3; [|discriminate].
  apply String.eqb_eq in E2. apply String.eqb_eq in E3. congruence.
Qed.

Lemma find_previous_essential {T} (name : string) (prev : list (node T)) :
  name = "h2" \/ name = "h3" ->
  find_previous name (filter Cleanup.read_by_script prev)
  = option_map Cleanup.essential_tag (find_previous name prev).
Proof.
  intros H. induction prev as [|n r IH]; [reflexivity|].
  cbn [filter find_previous]. destruct (named name n) as [e|] eqn:N.
  - rewrite (named_read_by_script name n e H N).
    cbn [find_previous]. rewrite N. reflexivity.
  - destruct (Cleanup.read_by_script n); cbn [find_previous]; rewrite ?N;
      exact IH.
Qed.

Lemma find_previous_nearer {T} (name : string) (prev : list (node T)) (t : tag T) :
  find_previous name prev = Some t -> (length (before t) < length prev)%nat.
Proof.
  induction prev as [|n r IH]; cbn [find_previous length]; [discriminate|].
  destruct (named name n) as [e|].
  - intros H. injection H as <-. cbn [before]. lia.
  - intros H. specialize (IH H). lia.
Qed.

Lemma headline_essential {T} (h : option (tag T)) :
  get_headline_text (option_map Cleanup.essential_tag h) = get_headline_text h.
Proof. destruct h; reflexivity. Qed.

Lemma eq_op_refl {T} (h : option (tag T)) : eq_op h h = true.
Proof.
  destruct h as [t|]; [|reflexivity]. unfold eq_op.
  now rewrite Nat.eqb_refl.
Qed.

Lemma country_of_essential (non_country_h2 : list string)
    (prev : list (node read_html_result)) :
  country_of non_country_h2 (filter Cleanup.read_by_script prev)
  = country_of non_country_h2 prev.
Proof.
  unfold country_of. cbv zeta.
  rewrite (find_previous_essential "h2" prev (or_introl eq_refl)).
  now rewrite headline_essential.
Qed.

Lemma subdivision_of_skips (n : node read_html_result)
    (r : list (node read_html_result)) :
  named "h2" n = None -> named "h3" n = None ->
  subdivision_of (n :: r) = subdivision_of r.
Proof.
  intros H2 H3. unfold subdivision_of. cbv zeta. cbn [find_previous].
  now rewrite H2, H3.
Qed.

Lemma subdivision_of_essential (prev : list (node read_html_result)) :
  subdivision_of (filter Cleanup.read_by_script prev) = subdivision_of prev.
Proof.
  induction prev as [|n r IH]; [reflexivity|].
  destruct (named "h2" n) as [e2|] eqn:H2; destruct (named "h3" n) as [e3|] eqn:H3.
  - destruct (named_h2_h3 n e2 e3 H2 H3).
  - cbn [filter].
    rewrite (named_read_by_script "h2" n e2 (or_introl eq_refl) H2).
    unfold subdivision_of. cbv zeta. cbn [find_previous]. rewrite H2, H3.
    pose proof (find_previous_essential "h3" r (or_intror eq_refl)) as F3.
    destruct (find_previous "h3" r) as [h3|] eqn:G3; rewrite F3;
      cbn [option_map]; [|reflexivity].
    pose proof (find_previous_essential "h2" (before h3) (or_introl eq_refl)) as FX.
    change (before (Cleanup.essential_tag h3))
      with (filter Cleanup.read_by_script (before h3)).
    pose proof (find_previous_nearer _ _ _ G3) as L3.
    pose proof (find_previous_nearer _ _ _ F3) as L3'.
    change (before (Cleanup.essential_tag h3))
      with (filter Cleanup.read_by_script (before h3)) in L3'.
    destruct (find_previous "h2" (before h3)) as [x|] eqn:GX; rewrite FX;
      cbn [option_map eq_op]; [|reflexivity].
    pose proof (find_previous_nearer _ _ _ GX) as LX.
    pose proof (find_previous_nearer _ _ _ FX) as LX'.
    unfold position. cbn [before markup].
    change (before (Cleanup.essential_tag x))
      with (filter Cleanup.read_by_script (before x)) in LX' |- *.
    change (markup (Cleanup.essential_tag x)) with (markup x).
    replace (length (filter Cleanup.read_by_script (before x))
             =? length (filter Cleanup.read_by_script r))%nat with false
      by (symmetry; apply Nat.eqb_neq; lia).
    replace (length (before x) =? length r)%nat with false
      by (symmetry; apply Nat.eqb_neq; lia).
    reflexivity.
  - cbn [filter].
    rewrite (named_read_by_script "h3" n e3 (or_intror eq_refl) H3).
    unfold subdivision_of. cbv zeta. cbn [find_previous]. rewrite H2, H3.
    cbn [before]. now rewrite !eq_op_refl.
  - rewrite (subdivision_of_skips n r H2 H3). cbn [filter].
    destruct (Cleanup.read_by_script n); [|exact IH].
    now rewrite (subdivision_of_skips n _ H2 H3).
Qed.

Lemma select_tables_essential {T} (prev body : list (node T)) :
  select_tables "wikitable" (filter Cleanup.read_by_script prev)
                (filter Cleanup.read_by_script body)
  = map (fun pt => (filter Cleanup.read_by_script (fst pt), snd pt))
        (select_tables "wikitable" prev body).
Proof.
  revert prev. induction body as [|n body IH]; intros prev; [reflexivity|].
  cbn [select_tables]. rewrite map_app. rewrite <- (IH (n :: prev)).
  cbn [filter]. destruct n as [e|cs t].
  - cbn [app map].
    destruct (Cleanup.read_by_script (Elem e)); reflexivity.
  - change (Cleanup.read_by_script (Table cs t)) with (contains cs "wikitable").
    destruct (contains cs "wikitable") eqn:E; [|reflexivity].
    cbn [select_tables]. now rewrite E.
Qed.

Lemma loop_body_essential (non_country_h2 : list string)
    (frames : list (frame string)) (prev : list (node read_html_result))
    (t : read_html_result) :
  loop_body non_country_h2 frames (filter Cleanup.read_by_script prev, t)
  = loop_body non_country_h2 frames (prev, t).
Proof.
  unfold loop_body.
  now rewrite country_of_essential, subdivision_of_essential.
Qed.

Lemma for_each_map {A X Y} (body : A -> X -> result A) (g : Y -> X)
    (body' : A -> Y -> result A) (ys : list Y) (acc : A) :
  (forall a y, body a (g y) = body' a y) ->
  for_each body (map g ys) acc = for_each body' ys acc.
Proof.
  intros H. revert acc. induction ys as [|y ys IH]; intros acc; [reflexivity|].
  cbn [map for_each]. rewrite H. unfold bind.
  destruct (body' acc y); [apply IH|reflexivity].
Qed.

Lemma collect_essential (non_country_h2 : list string)
    (p body : list (node read_html_result)) :
  collect non_country_h2 (filter Cleanup.read_by_script p)
          (filter Cleanup.read_by_script body)
  = collect non_country_h2 p body.
Proof.
  unfold collect. rewrite <- filter_rev, select_tables_essential.
  apply for_each_map. intros a [prev t]. apply loop_body_essential.
Qed.

(** X13. The run depends on nothing of the page but its h2 and h3
    headings and its tables of class "wikitable": on the page without
    its other nodes (texts, comments, other elements, tables of other
    classes, before the content body or in it) [main] ends in the same
    way, with the same exception or with the same file and the same
    line printed. *)
Theorem only_headings_and_wikitables_are_read (non_country_h2 : list string)
    (p : page) (w : world) :
  main non_country_h2 (Cleanup.essential p) w = main non_country_h2 p w.
Proof.
  unfold main, Cleanup.essential. cbn [content preamble].
  destruct (content p) as [body|]; cbn [option_map]; [|reflexivity].
  now rewrite collect_essential.
Qed.

(** On [page_with_more] the paragraph, the comment and the infobox go,
    and the file is the one of the page that is left. *)
Example page_with_more_essential :
  Cleanup.essential Cleanup.page_with_more
  = mkPage [Samples.heading "h2" "Contents"]
           (Some [Samples.heading "h2" "Canada";
                  Samples.heading "h3" "Quebec";
                  Samples.wikitable (Ok Samples.two_columns)])
  /\ read_file csv_path
       (fst (main NON_COUNTRY_H2 Cleanup.page_with_more Samples.nothing))
     = Some [first;
             ["Canada"; "Quebec"; "Ulysses"; "James Joyce"; "<NA>"; "<NA>";
              "<NA>"; "<NA>"; "<NA>"]].
Proof. split; vm_compute; reflexivity. Qed.

(** ** Rows in, rows out *)

Lemma fill_len (exp : list string) (df : frame string) :
  len (fold_left (fun df col => if negb (has_column df col)
                                then setitem_new df col object NA else df)
                 exp df)
  = len df.
Proof.
  revert df. induction exp as [|c exp IH]; intros df; [reflexivity|].
  cbn [fold_left]. rewrite IH. destruct (has_column df c); [reflexivity|].
  unfold len, setitem_new. cbn [rows negb]. apply length_map.
Qed.

Lemma set_cells_length (j : nat) (rs : list (list cell)) (vs : list cell) :
  length (set_cells j rs vs) = length rs.
Proof.
  revert vs. induction rs as [|r rs IH]; intros vs; [reflexivity|].
  destruct vs as [|v vs]; [reflexivity|]. cbn [set_cells length]. now rewrite IH.
Qed.

Lemma clean_column_len (df df' : frame string) (c : string) :
  clean_column df c = Ok df' -> len df' = len df.
Proof.
  unfold clean_column.
  destruct (positions df c) as [|j [|k r]]; try discriminate.
  destruct (dtype_eqb _ _); intros H; injection H as <-; [|reflexivity].
  unfold len, set_column_at. cbn [rows]. apply set_cells_length.
Qed.

Lemma clean_loop_len (cs : list string) (df df' : frame string) :
  for_each clean_column cs df = Ok df' -> len df' = len df.
Proof.
  revert df. induction cs as [|c cs IH]; intros df; cbn [for_each].
  - intros H. now injection H as <-.
  - destruct (clean_column df c) as [d1|e] eqn:E; unfold bind; [|discriminate].
    intros H. rewrite (IH _ H). exact (clean_column_len _ _ _ E).
Qed.

Lemma mask_rows_length (rs : list (list cell)) (mask : list bool) :
  length (mask_rows rs mask) <= length rs.
Proof.
  revert mask. induction rs as [|r rs IH]; intros mask; [reflexivity|].
  destruct mask as [|b mask]; cbn [mask_rows length]; [lia|].
  specialize (IH mask). rewrite length_app. destruct b; cbn [length]; lia.
Qed.

(** X14. The frame of a table never has more rows than the table as
    read: renaming, completing and cleaning the columns keep the rows,
    and the two filters only drop rows. *)
Theorem table_frame_drops_only (country : string) (subdivision : option string)
    (df : frame label) (d : frame string) :
  table_frame country subdivision df = Ok d -> len d <= len df.
Proof.
  unfold table_frame.
  destruct (with_headings country subdivision df) as [d1|e] eqn:E1;
    unfold bind at 1; [|discriminate].
  cbv zeta.
  destruct (for_each clean_column (columns (dropna_all d1)) (dropna_all d1))
    as [d2|e] eqn:E2; unfold bind; [|discriminate].
  intros E3.
  assert (L1 : len d1 = len df).
  { apply with_headings_inv in E1. destruct E1 as (v & ->).
    unfold len at 1. cbn [rows]. rewrite length_map.
    unfold renamed, add_expected. cbv zeta.
    fold (len (fold_left
                 (fun df col => if negb (has_column df col)
                                then setitem_new df col object NA else df)
                 expected (set_columns df (normalize_colnames (columns df))))).
    now rewrite fill_len. }
  assert (L2 : len (dropna_all d1) <= len d1).
  { unfold len, dropna_all. cbn [rows]. apply filter_length_le. }
  apply clean_loop_len in E2.
  assert (L3 : len d <= len d2).
  { unfold drop_untitled in E3.
    destruct (positions d2 "Title") as [|j [|k r]]; try discriminate.
    injection E3 as <-. unfold len, getitem_mask. cbn [rows].
    apply mask_rows_length. }
  lia.
Qed.

Lemma table_frame_drops_only_witness :
  len Samples.ulysses_frame <= len Samples.two_columns.
Proof.
  apply (table_frame_drops_only "Canada" (Some "Quebec")).
  vm_compute. reflexivity.
Defined.
